(** * Flight Analytics: record normalizer and statistics aggregator

    A shallow embedding of [src/src/App.tsx] (the functions
    [parseTimeToMinutes], [formatMinutesToTime], [parseTimeString],
    [processFlightData], [calculateStats] and the [reader.onload] handler of
    [handleFileUpload]) together with the properties its specification
    states about them.

    Conventions of the embedding.
    - A JavaScript string is a [string]; each character stands for one code
      unit below 256, so the white space of [trim], [parseInt], [Number] and
      of the regular expression class [\s] is TAB, LF, VT, FF, CR, SPACE and
      NBSP.
    - A JavaScript number that holds an integer is a [Z] with exact
      arithmetic, which is what doubles do up to 2^53; [parseInt] and
      [Number] round a longer numeral to the nearest double, so what is
      stated about the value a text is read as is stated up to 2^53.  A
      number with a fractional part, or an infinite one, can only come out
      of [Number(...)] in [parseTimeString]: the normalizer is modelled
      twice, on all these numbers (module [Full], total) and on integers,
      where a total flight time that is no whole number ends the run in
      [Beyond]; the aggregator is modelled on integers.
    - A spreadsheet cell is [option string]: with [raw: false] the decoder
      hands out formatted text, and an empty cell is a hole in the row array
      ([undefined] when read), here [None].
    - A thrown exception is a value of the result type [outcome]. *)

From Stdlib Require Import ZArith Ascii String List Lia Bool.
From Stdlib Require Import Sorted Permutation.
From stdpp Require Import base option list gmap strings fin_maps.

Import ListNotations.
Local Open Scope string_scope.
Local Open Scope Z_scope.

(** ** Results of JavaScript computations *)

Record exn := Exn { exn_name : string; exn_message : string }.

Inductive outcome (A : Type) : Type :=
| Ret (a : A)          (* normal completion *)
| Throw (e : exn)      (* an exception propagates *)
| Beyond.              (* a number that is no integer was produced *)
Arguments Ret {A} a.
Arguments Throw {A} e.
Arguments Beyond {A}.

#[global] Instance outcome_ret : MRet outcome := fun A a => Ret a.

#[global] Instance outcome_bind : MBind outcome := fun A B k m =>
  match m with
  | Ret a => k a
  | Throw e => Throw e
  | Beyond => Beyond
  end.

(** [l.map(f)] for a callback that may throw: the elements are visited in
    order and the first exception ends the loop. *)
Fixpoint traverse {A B} (f : A -> outcome B) (l : list A) : outcome (list B) :=
  match l with
  | [] => Ret []
  | a :: l' => b ← f a; bs ← traverse f l'; Ret (b :: bs)
  end.

(** ** String built-ins *)

Module Js.

(** White space and line terminators among the code units below 256. *)
Definition isWhiteSpace (c : ascii) : bool :=
  let n := N_of_ascii c in
  ((9 <=? n) && (n <=? 13) || (n =? 32) || (n =? 160))%N.

Fixpoint trimStart (s : string) : string :=
  match s with
  | String c s' => if isWhiteSpace c then trimStart s' else s
  | EmptyString => EmptyString
  end.

Fixpoint trimEnd (s : string) : string :=
  match s with
  | String c s' =>
      match trimEnd s' with
      | EmptyString => if isWhiteSpace c then EmptyString else String c EmptyString
      | t => String c t
      end
  | EmptyString => EmptyString
  end.

(** [String.prototype.trim] *)
Definition trim (s : string) : string := trimEnd (trimStart s).

(** [s.includes(c)] for a one-character needle. *)
Fixpoint includes (c : ascii) (s : string) : bool :=
  match s with
  | String d s' => Ascii.eqb d c || includes c s'
  | EmptyString => false
  end.

(** [s.split(c)] for a one-character separator: always at least one piece. *)
Fixpoint split (c : ascii) (s : string) : list string :=
  match s with
  | EmptyString => [EmptyString]
  | String d s' =>
      if Ascii.eqb d c then EmptyString :: split c s'
      else match split c s' with
           | p :: ps => String d p :: ps
           | [] => [String d EmptyString]
           end
  end.

(** Value of a character as a digit: 0-9, then a-z and A-Z for 10-35. *)
Definition digitValue (c : ascii) : option Z :=
  let n := Z.of_N (N_of_ascii c) in
  if (48 <=? n) && (n <=? 57) then Some (n - 48)
  else if (97 <=? n) && (n <=? 122) then Some (n - 87)
  else if (65 <=? n) && (n <=? 90) then Some (n - 55)
  else None.

Definition radixDigit (radix : Z) (c : ascii) : option Z :=
  match digitValue c with
  | Some d => if d <? radix then Some d else None
  | None => None
  end.

(** The longest prefix of [s] made of radix-[radix] digits, as digit values. *)
Fixpoint takeDigits (radix : Z) (s : string) : list Z :=
  match s with
  | String c s' =>
      match radixDigit radix c with
      | Some d => d :: takeDigits radix s'
      | None => []
      end
  | EmptyString => []
  end.

(** Whether every character of [s] is a radix-[radix] digit. *)
Fixpoint allDigits (radix : Z) (s : string) : bool :=
  match s with
  | String c s' => bool_decide (is_Some (radixDigit radix c)) && allDigits radix s'
  | EmptyString => true
  end.

(** The integer a digit sequence denotes. *)
Definition mathInt (radix : Z) (ds : list Z) : Z :=
  fold_left (fun acc d => acc * radix + d) ds 0.

Definition stripSign (s : string) : bool * string :=
  match s with
  | String "-" s' => (true, s')
  | String "+" s' => (false, s')
  | _ => (false, s)
  end.

Definition stripHexPrefix (s : string) : option string :=
  match s with
  | String "0" (String "x" s') => Some s'
  | String "0" (String "X" s') => Some s'
  | _ => None
  end.

(** [parseInt(s)] with no radix argument; [None] is [NaN].  The result is
    the integer the digits denote; the double the code gets is that integer
    up to 2^53 and the nearest double beyond. *)
Definition parseInt (s : string) : option Z :=
  let '(neg, s1) := stripSign (trimStart s) in
  let '(radix, s2) :=
    match stripHexPrefix s1 with
    | Some s' => (16, s')
    | None => (10, s1)
    end in
  match takeDigits radix s2 with
  | [] => None
  | ds => Some (if neg then - mathInt radix ds else mathInt radix ds)
  end.

(** The rest of [s] after its longest prefix of radix-[radix] digits. *)
Fixpoint dropDigits (radix : Z) (s : string) : string :=
  match s with
  | String c s' =>
      match radixDigit radix c with
      | Some _ => dropDigits radix s'
      | None => s
      end
  | EmptyString => EmptyString
  end.

(** A number other than [NaN]: the integer [z] (beyond 2^53, the double
    nearest to it); the double nearest to m * 10^e, where that product is
    no integer; or an infinity. *)
Inductive number :=
| Whole (z : Z)
| Decimal (m e : Z)
| Infinite (negative : bool).

Definition radixLiteral (s : string) : option (Z * string) :=
  match s with
  | String "0" (String "x" s') | String "0" (String "X" s') => Some (16, s')
  | String "0" (String "o" s') | String "0" (String "O" s') => Some (8, s')
  | String "0" (String "b" s') | String "0" (String "B" s') => Some (2, s')
  | _ => None
  end.

Fixpoint forallb_string (p : ascii -> bool) (s : string) : bool :=
  match s with
  | String c s' => p c && forallb_string p s'
  | EmptyString => true
  end.

Definition nonEmpty (s : string) : bool :=
  match s with EmptyString => false | _ => true end.

(** The exponent part of a decimal literal: nothing, or e or E and a signed
    run of digits. *)
Definition exponentPart (s : string) : option Z :=
  match s with
  | EmptyString => Some 0
  | String c s' =>
      if Ascii.eqb c "e" || Ascii.eqb c "E" then
        let '(neg, d) := stripSign s' in
        if nonEmpty d && allDigits 10 d then
          let v := mathInt 10 (takeDigits 10 d) in Some (if neg then - v else v)
        else None
      else None
  end.

(** An unsigned decimal literal other than Infinity (digits, then possibly a
    dot and digits, then possibly an exponent; digits on at least one side of
    the dot), as a mantissa [m] and an exponent [e]: its value is m * 10^e. *)
Definition decimalLiteral (s : string) : option (Z * Z) :=
  let ip := takeDigits 10 s in
  let r1 := dropDigits 10 s in
  let '(fp, r2) :=
    match r1 with
    | String "." r => (takeDigits 10 r, dropDigits 10 r)
    | _ => ([], r1)
    end in
  match (ip ++ fp)%list with
  | [] => None
  | ds =>
      match exponentPart r2 with
      | Some x => Some (mathInt 10 ds, x - Z.of_nat (length fp))
      | None => None
      end
  end.

(** The number a signed mantissa and an exponent denote. *)
Definition ofDecimal (neg : bool) (m e : Z) : number :=
  let m := if neg then - m else m in
  if 0 <=? e then Whole (m * 10 ^ e)
  else if m mod 10 ^ (- e) =? 0 then Whole (m / 10 ^ (- e))
  else Decimal m e.

(** [Number(s)] on a string; [None] is [NaN].  White space around the text
    is dropped; the empty text is 0; a 0x, 0o or 0b literal (without sign) is
    that integer; otherwise the text must be a signed decimal literal or a
    signed Infinity. *)
Definition Number (s : string) : option number :=
  let t := trim s in
  if negb (nonEmpty t) then Some (Whole 0) else
  match radixLiteral t with
  | Some (radix, body) =>
      if nonEmpty body && allDigits radix body
      then Some (Whole (mathInt radix (takeDigits radix body))) else None
  | None =>
      let '(neg, u) := stripSign t in
      if String.eqb u "Infinity" then Some (Infinite neg) else
      match decimalLiteral u with
      | Some (m, e) => Some (ofDecimal neg m e)
      | None => None
      end
  end.

(** [x >= 0] on a number. *)
Definition nonNegative (x : number) : Prop :=
  match x with
  | Whole z => 0 <= z
  | Decimal m _ => 0 <= m
  | Infinite negative => negative = false
  end.

Definition digitChar (d : Z) : ascii := ascii_of_N (Z.to_N (48 + d)).

(** Decimal digits of a non-negative integer, most significant first, put in
    front of [acc]; [fuel] bounds the number of digits. *)
Fixpoint digitsOnto (fuel : nat) (n : Z) (acc : string) : string :=
  match fuel with
  | O => acc
  | S fuel' =>
      let acc' := String (digitChar (n mod 10)) acc in
      if n <? 10 then acc' else digitsOnto fuel' (n / 10) acc'
  end.

Definition digitsOf (n : Z) : string :=
  digitsOnto (S (Z.to_nat (Z.log2 n))) n EmptyString.

(** [n.toString()] and template-literal conversion of an integer. *)
Definition toString (z : Z) : string :=
  if z <? 0 then String "-" (digitsOf (- z)) else digitsOf z.

(** [s.padStart(2, '0')] *)
Definition padStart2 (s : string) : string :=
  match s with
  | EmptyString => "00"
  | String c EmptyString => String "0" s
  | _ => s
  end.

End Js.

(** ** Data model *)

(** A cell as the sheet decoder delivers it: text, or nothing. *)
Definition cell := option string.

(** A row of the sheet: an array of cells; [None] is a hole. *)
Definition RawRow := list cell.

(** [row[index]] on a row array: a hole and an index past the end both read
    as [undefined]. *)
Definition at_index (row : RawRow) (index : nat) : cell :=
  match row !! index with
  | Some c => c
  | None => None
  end.

(** The names every object finds on [Object.prototype]: they read as
    functions (or the prototype itself) unless the object has a property of
    its own by that name. *)
Definition objectPrototypeKeys : list string :=
  [ "constructor"; "__defineGetter__"; "__defineSetter__"; "hasOwnProperty";
    "__lookupGetter__"; "__lookupSetter__"; "isPrototypeOf"; "propertyIsEnumerable";
    "toString"; "valueOf"; "__proto__"; "toLocaleString" ].

(** [row[key]] on the header-keyed object ([record: any] in the source), an
    object literal holding cells: a property that is absent and a property
    set to [undefined] read alike.  This is what [row[key]] gives for every
    key the object has as its own and for every key outside
    [objectPrototypeKeys], the keys the normalizer reads among them; an
    absent key of [objectPrototypeKeys] reads as what the prototype holds,
    which is no cell. *)
Definition prop (row : gmap string cell) (key : string) : cell :=
  match row !! key with
  | Some c => c
  | None => None
  end.

(** [c || d]: the default replaces [undefined] and the empty string. *)
Definition orElse (c : cell) (d : string) : string :=
  match c with
  | Some (String a s) => String a s
  | _ => d
  end.

(** [parseInt((c || '0').toString()) || 0] *)
Definition intOf (c : cell) : Z :=
  match Js.parseInt (orElse c "0") with
  | Some z => z
  | None => 0
  end.

Module FlightRecord.
(** The record of the normalizer.  The two fields of the total flight time
    are the only ones not read with [parseInt]; [N] is the type of their
    values. *)
Record poly {N : Type} := mk {
  ser : string;
  date : string;
  from : string;
  to : string;
  takeoffHours : Z;
  takeoffMinutes : Z;
  landingHours : Z;
  landingMinutes : Z;
  flightHours : Z;
  flightMinutes : Z;
  cycles : Z;
  totalFlightHours : N;
  totalFlightMinutes : N;
  totalCycles : Z;
  tlbNumber : string;
  lastDate : string;
  totalHours : Z;
  totalMinutes : Z;
  totalCyclesSum : Z;
  hoursPerMonth : Z;
  cyclesPerMonth : Z
}.
(** A record whose total flight time is in whole numbers, as the aggregator
    takes it. *)
Abbreviation t := (@poly Z).
End FlightRecord.

Record RouteStat := { count : Z; totalTime : Z }.

Record MonthStat := { hours : Z; flights : Z; month_cycles : Z }.

Module FlightStats.
Record t := mk {
  totalFlightTime : string;
  totalCycles : Z;
  totalFlights : Z;
  averageFlightTime : string;
  mostFrequentRoute : string;
  totalDays : Z;
  (** [data.length / totalDays] before [toFixed(2)], as numerator and
      denominator; [None] is the constant 0 of the [totalDays = 0] branch.
      The rounding to two decimals is done on a double and is left out. *)
  averageFlightsPerDay : option (Z * Z);
  (** the two objects, as their entries in insertion order *)
  monthlyStats : list (string * MonthStat);
  routeStats : list (string * RouteStat)
}.
End FlightStats.

(** ** Time helpers (lines 47-61) *)

Definition parseTimeToMinutes (hours minutes : Z) : Z :=
  Z.max (hours * 60 + minutes) 0.

Definition formatMinutesToTime (totalMinutes : Z) : string :=
  let hours := totalMinutes / 60 in
  let minutes := Z.rem totalMinutes 60 in
  Js.toString hours ++ ":" ++ Js.padStart2 (Js.toString minutes).

(** One destructured component of [timeStr.split(':').map(Number)], after
    [isNaN(x) ? 0 : x]; a missing component is [undefined], which [isNaN]
    accepts.  A fraction or an infinity is where the integers end; see
    [Full.component] for the function on all numbers. *)
Definition component (parts : list string) (i : nat) : outcome Z :=
  match parts !! i with
  | None => Ret 0
  | Some p =>
      match Js.Number p with
      | Some (Js.Whole z) => Ret z
      | Some _ => Beyond
      | None => Ret 0
      end
  end.

Definition parseTimeString (timeStr : string) : outcome (Z * Z) :=
  if negb (Js.nonEmpty timeStr) then Ret (0, 0) else
  let parts := Js.split ":" timeStr in
  hours ← component parts 0;
  minutes ← component parts 1;
  Ret (hours, minutes).

(** ** Record normalizer (lines 63-99) *)

(** The callback of [data.map] in [processFlightData]. *)
Definition normalize (row : gmap string cell) (index : nat) : outcome FlightRecord.t :=
  let totalTimeStr := orElse (prop row "Total F\H") "" in
  total ←
    (if Js.includes ":" totalTimeStr
     then parseTimeString totalTimeStr
     else Ret (intOf (prop row "TOTAL HRS"), 0));
  Ret {|
    FlightRecord.ser := orElse (prop row "Ser") (Js.toString (Z.of_nat index + 1));
    FlightRecord.date := orElse (prop row "Date") "";
    FlightRecord.from := orElse (prop row "From") "";
    FlightRecord.to := orElse (prop row "To") "";
    FlightRecord.takeoffHours := intOf (prop row "T\O hrs");
    FlightRecord.takeoffMinutes := intOf (prop row "T\O min");
    FlightRecord.landingHours := intOf (prop row "Landing hrs");
    FlightRecord.landingMinutes := intOf (prop row "Landing min");
    FlightRecord.flightHours := intOf (prop row "F\H hrs");
    FlightRecord.flightMinutes := intOf (prop row "F\H min");
    FlightRecord.cycles := intOf (prop row "Cyc.");
    FlightRecord.totalFlightHours := total.1;
    FlightRecord.totalFlightMinutes := total.2;
    FlightRecord.totalCycles := intOf (prop row "Total Cyc");
    FlightRecord.tlbNumber := orElse (prop row "TLB #") "";
    FlightRecord.lastDate := orElse (prop row "Last Date") "";
    FlightRecord.totalHours := intOf (prop row "TOTAL HRS");
    FlightRecord.totalMinutes := intOf (prop row "TOTAL MIN");
    FlightRecord.totalCyclesSum := intOf (prop row "TOTAL CYC");
    FlightRecord.hoursPerMonth := intOf (prop row "HRS/MOUNTH");
    FlightRecord.cyclesPerMonth := intOf (prop row "CYC/MOUNTH")
  |}.

(** [data.map((row, index) => ...)] from position [index] on. *)
Fixpoint normalizeFrom (index : nat) (data : list (gmap string cell))
  : outcome (list FlightRecord.t) :=
  match data with
  | [] => Ret []
  | row :: rest =>
      r ← normalize row index;
      rs ← normalizeFrom (S index) rest;
      Ret (r :: rs)
  end.

(** The filter [r => r.ser && r.date]. *)
Definition valid {N} (r : @FlightRecord.poly N) : bool :=
  Js.nonEmpty (FlightRecord.ser r) && Js.nonEmpty (FlightRecord.date r).

Definition processFlightData (data : list (gmap string cell))
  : outcome (list FlightRecord.t) :=
  rs ← normalizeFrom 0 data;
  Ret (List.filter valid rs).

(** ** The normalizer on all numbers

    The same three functions with the total flight time as the number
    [Number] gives, whole or not: nothing in them can fail. *)

Module Full.

Definition component (parts : list string) (i : nat) : Js.number :=
  match parts !! i with
  | None => Js.Whole 0
  | Some p =>
      match Js.Number p with
      | Some x => x
      | None => Js.Whole 0
      end
  end.

Definition parseTimeString (timeStr : string) : Js.number * Js.number :=
  if negb (Js.nonEmpty timeStr) then (Js.Whole 0, Js.Whole 0) else
  let parts := Js.split ":" timeStr in
  (component parts 0, component parts 1).

Definition normalize (row : gmap string cell) (index : nat) : @FlightRecord.poly Js.number :=
  let totalTimeStr := orElse (prop row "Total F\H") "" in
  let total :=
    if Js.includes ":" totalTimeStr
    then parseTimeString totalTimeStr
    else (Js.Whole (intOf (prop row "TOTAL HRS")), Js.Whole 0) in
  {|
    FlightRecord.ser := orElse (prop row "Ser") (Js.toString (Z.of_nat index + 1));
    FlightRecord.date := orElse (prop row "Date") "";
    FlightRecord.from := orElse (prop row "From") "";
    FlightRecord.to := orElse (prop row "To") "";
    FlightRecord.takeoffHours := intOf (prop row "T\O hrs");
    FlightRecord.takeoffMinutes := intOf (prop row "T\O min");
    FlightRecord.landingHours := intOf (prop row "Landing hrs");
    FlightRecord.landingMinutes := intOf (prop row "Landing min");
    FlightRecord.flightHours := intOf (prop row "F\H hrs");
    FlightRecord.flightMinutes := intOf (prop row "F\H min");
    FlightRecord.cycles := intOf (prop row "Cyc.");
    FlightRecord.totalFlightHours := total.1;
    FlightRecord.totalFlightMinutes := total.2;
    FlightRecord.totalCycles := intOf (prop row "Total Cyc");
    FlightRecord.tlbNumber := orElse (prop row "TLB #") "";
    FlightRecord.lastDate := orElse (prop row "Last Date") "";
    FlightRecord.totalHours := intOf (prop row "TOTAL HRS");
    FlightRecord.totalMinutes := intOf (prop row "TOTAL MIN");
    FlightRecord.totalCyclesSum := intOf (prop row "TOTAL CYC");
    FlightRecord.hoursPerMonth := intOf (prop row "HRS/MOUNTH");
    FlightRecord.cyclesPerMonth := intOf (prop row "CYC/MOUNTH")
  |}.

Fixpoint normalizeFrom (index : nat) (data : list (gmap string cell))
  : list (@FlightRecord.poly Js.number) :=
  match data with
  | [] => []
  | row :: rest => normalize row index :: normalizeFrom (S index) rest
  end.

Definition processFlightData (data : list (gmap string cell))
  : list (@FlightRecord.poly Js.number) :=
  List.filter valid (normalizeFrom 0 data).

End Full.

(** The record with its total flight time in whole numbers, when it is. *)
Definition integral (r : @FlightRecord.poly Js.number) : outcome FlightRecord.t :=
  match FlightRecord.totalFlightHours r, FlightRecord.totalFlightMinutes r with
  | Js.Whole h, Js.Whole m =>
      Ret {|
        FlightRecord.ser := FlightRecord.ser r;
        FlightRecord.date := FlightRecord.date r;
        FlightRecord.from := FlightRecord.from r;
        FlightRecord.to := FlightRecord.to r;
        FlightRecord.takeoffHours := FlightRecord.takeoffHours r;
        FlightRecord.takeoffMinutes := FlightRecord.takeoffMinutes r;
        FlightRecord.landingHours := FlightRecord.landingHours r;
        FlightRecord.landingMinutes := FlightRecord.landingMinutes r;
        FlightRecord.flightHours := FlightRecord.flightHours r;
        FlightRecord.flightMinutes := FlightRecord.flightMinutes r;
        FlightRecord.cycles := FlightRecord.cycles r;
        FlightRecord.totalFlightHours := h;
        FlightRecord.totalFlightMinutes := m;
        FlightRecord.totalCycles := FlightRecord.totalCycles r;
        FlightRecord.tlbNumber := FlightRecord.tlbNumber r;
        FlightRecord.lastDate := FlightRecord.lastDate r;
        FlightRecord.totalHours := FlightRecord.totalHours r;
        FlightRecord.totalMinutes := FlightRecord.totalMinutes r;
        FlightRecord.totalCyclesSum := FlightRecord.totalCyclesSum r;
        FlightRecord.hoursPerMonth := FlightRecord.hoursPerMonth r;
        FlightRecord.cyclesPerMonth := FlightRecord.cyclesPerMonth r
      |}
  | _, _ => Beyond
  end.

(** ** Dates *)

Definition msPerDay : Z := 1000 * 60 * 60 * 24.

(** Year, month and day of the proleptic Gregorian calendar for a day
    number counted from 1970-01-01. *)
Definition civilFromDays (day : Z) : Z * Z * Z :=
  let z := day + 719468 in
  let era := z / 146097 in
  let doe := z - era * 146097 in
  let yoe := (doe - doe / 1460 + doe / 36524 - doe / 146096) / 365 in
  let doy := doe - (365 * yoe + yoe / 4 - yoe / 100) in
  let mp := (5 * doy + 2) / 153 in
  let d := doy - (153 * mp + 2) / 5 + 1 in
  let m := if mp <? 10 then mp + 3 else mp - 9 in
  let y := yoe + era * 400 in
  (if m <=? 2 then y + 1 else y, m, d).

(** Day number of a calendar date, the inverse of [civilFromDays]. *)
Definition daysFromCivil (y m d : Z) : Z :=
  let y' := if m <=? 2 then y - 1 else y in
  let era := y' / 400 in
  let yoe := y' - era * 400 in
  let doy := (153 * (if 2 <? m then m - 3 else m + 9) + 2) / 5 + d - 1 in
  let doe := yoe * 365 + yoe / 4 - yoe / 100 + doy in
  era * 146097 + doe - 719468.

(** [s.padStart(width, '0')] *)
Definition padZeros (width : nat) (s : string) : string :=
  String.concat "" (repeat "0" (width - String.length s)) ++ s.

(** [Date.prototype.toISOString] on a valid time value [t] (milliseconds
    since the epoch): YYYY-MM-DDTHH:mm:ss.sssZ, the year with a sign and six
    digits outside 0..9999. *)
Definition toISOString (t : Z) : string :=
  let '(y, m, d) := civilFromDays (t / msPerDay) in
  let ms := t mod msPerDay in
  let year :=
    if (0 <=? y) && (y <=? 9999) then padZeros 4 (Js.toString y)
    else String (if y <? 0 then "-"%char else "+"%char) (padZeros 6 (Js.toString (Z.abs y))) in
  year ++ "-" ++ padZeros 2 (Js.toString m) ++ "-" ++ padZeros 2 (Js.toString d)
  ++ "T" ++ padZeros 2 (Js.toString (ms / 3600000))
  ++ ":" ++ padZeros 2 (Js.toString (ms / 60000 mod 60))
  ++ ":" ++ padZeros 2 (Js.toString (ms / 1000 mod 60))
  ++ "." ++ padZeros 3 (Js.toString (ms mod 1000)) ++ "Z".

(** ** Statistics aggregator (lines 101-163) *)

Definition minutesOf (r : FlightRecord.t) : Z :=
  parseTimeToMinutes (FlightRecord.totalFlightHours r) (FlightRecord.totalFlightMinutes r).

(** The route key of line 124. *)
Definition routeOf (r : FlightRecord.t) : string :=
  FlightRecord.from r ++ "-" ++ FlightRecord.to r.

(** Lines 116-120: the two [reduce] folds. *)
Definition totalMinutesOf (data : list FlightRecord.t) : Z :=
  fold_left (fun sum record => sum + minutesOf record) data 0.

Definition totalCyclesOf (data : list FlightRecord.t) : Z :=
  fold_left (fun sum record => sum + FlightRecord.totalCycles record) data 0.

(** One pass of the loop body of lines 124-129 on the entries of
    [routeStats]: a new key goes to the end, a known key is updated in
    place. *)
Fixpoint addRoute (route : string) (time : Z) (entries : list (string * RouteStat))
  : list (string * RouteStat) :=
  match entries with
  | [] => [(route, {| count := 0 + 1; totalTime := 0 + time |})]
  | (k, v) :: rest =>
      if String.eqb k route
      then (k, {| count := count v + 1; totalTime := totalTime v + time |}) :: rest
      else (k, v) :: addRoute route time rest
  end.

Definition routeStatsOf (data : list FlightRecord.t) : list (string * RouteStat) :=
  fold_left (fun entries record => addRoute (routeOf record) (minutesOf record) entries)
            data [].

(** [entries.sort(([,a], [,b]) => b.count - a.count)]: [Array.prototype.sort]
    is stable, so entries of equal count keep their order.  Insertion from
    the right puts an entry in front of the first one that does not have a
    strictly larger count. *)
Fixpoint insertByCount (e : string * RouteStat) (sorted : list (string * RouteStat))
  : list (string * RouteStat) :=
  match sorted with
  | [] => [e]
  | e' :: rest =>
      if count e.2 <? count e'.2 then e' :: insertByCount e rest
      else e :: e' :: rest
  end.

Definition sortByCountDesc (entries : list (string * RouteStat))
  : list (string * RouteStat) :=
  fold_right insertByCount [] entries.

(** Lines 132-133; a route key is never empty, so [|| 'N/A'] only serves
    an empty entry list. *)
Definition mostFrequentRouteOf (data : list FlightRecord.t) : string :=
  match sortByCountDesc (routeStatsOf data) with
  | (k, _) :: _ => orElse (Some k) "N/A"
  | [] => "N/A"
  end.

Fixpoint addMonth (month : string) (time cyc : Z) (entries : list (string * MonthStat))
  : list (string * MonthStat) :=
  match entries with
  | [] => [(month, {| hours := 0 + time; flights := 0 + 1; month_cycles := 0 + cyc |})]
  | (k, v) :: rest =>
      if String.eqb k month
      then (k, {| hours := hours v + time; flights := flights v + 1;
                  month_cycles := month_cycles v + cyc |}) :: rest
      else (k, v) :: addMonth month time cyc rest
  end.

Definition invalidTime : exn := Exn "RangeError" "Invalid time value".

Section Aggregator.

(** [Date.parse]: the time value of a date string, [None] for an invalid
    date.  Outside the ISO format its result is left to the host by
    ECMAScript, so it is a parameter here. *)
Variable Date_parse : string -> option Z.

(** [new Date(s).toISOString()]: throws on an invalid date. *)
Definition isoOf (s : string) : outcome string :=
  match Date_parse s with
  | Some t => Ret (toISOString t)
  | None => Throw invalidTime
  end.

(** Lines 135-146, the loop over [data] threading the entries of
    [monthlyStats]. *)
Fixpoint monthlyFrom (entries : list (string * MonthStat)) (data : list FlightRecord.t)
  : outcome (list (string * MonthStat)) :=
  match data with
  | [] => Ret entries
  | record :: rest =>
      if Js.nonEmpty (FlightRecord.date record) then
        iso ← isoOf (FlightRecord.date record);
        let month := substring 0 7 iso in
        monthlyFrom (addMonth month (minutesOf record) (FlightRecord.totalCycles record) entries)
                    rest
      else monthlyFrom entries rest
  end.

(** Line 148: the time values of the valid dates. *)
Definition datesOf (data : list FlightRecord.t) : list Z :=
  omap (fun r => Date_parse (FlightRecord.date r)) data.

(** [Math.max(...ts)] and [Math.min(...ts)] on a non-empty list. *)
Definition maxOf (t : Z) (ts : list Z) : Z := fold_left Z.max ts t.
Definition minOf (t : Z) (ts : list Z) : Z := fold_left Z.min ts t.

(** [Math.ceil(n / d)] for integers, [d] positive. *)
Definition ceilDiv (n d : Z) : Z := - ((- n) / d).

(** Lines 149-150. *)
Definition totalDaysOf (data : list FlightRecord.t) : Z :=
  match datesOf data with
  | [] => 0
  | t :: ts => ceilDiv (maxOf t ts - minOf t ts) msPerDay + 1
  end.

(** [Math.round(n / d)] for integers, [d] positive: halves go up. *)
Definition roundDiv (n d : Z) : Z := (2 * n + d) / (2 * d).

Definition emptyStats : FlightStats.t :=
  {| FlightStats.totalFlightTime := "0:00";
     FlightStats.totalCycles := 0;
     FlightStats.totalFlights := 0;
     FlightStats.averageFlightTime := "0:00";
     FlightStats.mostFrequentRoute := "N/A";
     FlightStats.totalDays := 0;
     FlightStats.averageFlightsPerDay := None;
     FlightStats.monthlyStats := [];
     FlightStats.routeStats := [] |}.

Definition calculateStats (data : list FlightRecord.t) : outcome FlightStats.t :=
  match data with
  | [] => Ret emptyStats
  | _ =>
      let totalMinutes := totalMinutesOf data in
      let totalCycles := totalCyclesOf data in
      let routeStats := routeStatsOf data in
      let mostFrequentRoute := mostFrequentRouteOf data in
      monthlyStats ← monthlyFrom [] data;
      let totalDays := totalDaysOf data in
      let n := Z.of_nat (length data) in
      Ret {| FlightStats.totalFlightTime := formatMinutesToTime totalMinutes;
             FlightStats.totalCycles := totalCycles;
             FlightStats.totalFlights := n;
             FlightStats.averageFlightTime := formatMinutesToTime (roundDiv totalMinutes n);
             FlightStats.mostFrequentRoute := mostFrequentRoute;
             FlightStats.totalDays := totalDays;
             FlightStats.averageFlightsPerDay :=
               if 0 <? totalDays then Some (n, totalDays) else None;
             FlightStats.monthlyStats := monthlyStats;
             FlightStats.routeStats := routeStats |}
  end.

End Aggregator.

(** ** Upload handler (lines 165-206) *)

Fixpoint removeChars (p : ascii -> bool) (s : string) : string :=
  match s with
  | String c s' => if p c then removeChars p s' else String c (removeChars p s')
  | EmptyString => EmptyString
  end.

(** The character class of the pattern [/\\|[\s\n]+/g]: a backslash or white
    space.  Replacing every match by the empty string deletes exactly the
    characters of the class. *)
Definition strippedChar (c : ascii) : bool :=
  Ascii.eqb c "\" || Js.isWhiteSpace c.

(** [header.trim().replace(/\\|[\s\n]+/g, '')] of line 185. *)
Definition canonicalKey (header : string) : string :=
  removeChars strippedChar (Js.trim header).

(** [record[key] = value] on the object literal of line 183, for a cell
    [value]: the key [__proto__] is the accessor of [Object.prototype], whose
    setter ignores everything but objects and [null], so nothing is stored
    under it; every other key becomes or stays a property of the object. *)
Definition assign (key : string) (value : cell) (record : gmap string cell)
  : gmap string cell :=
  if String.eqb key "__proto__" then record else <[key := value]> record.

(** Lines 183-186: [headers.forEach((header, index) => ...)] filling
    [record]; [forEach] skips the holes of [headers], and a later header
    with the same key overwrites an earlier one. *)
Fixpoint fillFrom (index : nat) (headers : list cell) (row : RawRow)
    (record : gmap string cell) : gmap string cell :=
  match headers with
  | [] => record
  | Some header :: rest =>
      fillFrom (S index) rest row (assign (canonicalKey header) (at_index row index) record)
  | None :: rest => fillFrom (S index) rest row record
  end.

Definition recordOf (headers : list cell) (row : RawRow) : gmap string cell :=
  fillFrom 0 headers row ∅.

(** [headers.includes(name)] *)
Definition hasHeader (headers : list cell) (name : string) : bool :=
  existsb (fun c => match c with Some s => String.eqb s name | None => false end) headers.

Definition requiredHeaders : list string :=
  ["Date"; "From"; "To"; "Total F\H"; "Total Cyc"].

Definition missingHeaders : exn :=
  Exn "Error" "Missing required headers (e.g., Date, From, To, Total F\H, Total Cyc)".

Definition noValidData : exn :=
  Exn "Error" "No valid flight data found in the file".

(** [jsonData[0]] is [undefined] for a sheet without rows, and
    [headers.includes] then throws (the message is the one of V8). *)
Definition headersUndefined : exn :=
  Exn "TypeError" "Cannot read properties of undefined (reading 'includes')".

(** What the decoding of the uploaded bytes (lines 171-175) comes to:
    [XLSX.read] throws, or [sheet_to_json] returns the rows of the first
    sheet. *)
Inductive upload :=
| Unreadable (e : exn)
| Sheet (jsonData : list RawRow).

(** The callback of [rows.map] (lines 182-188). *)
Definition processRow (headers : list cell) (row : RawRow) : outcome (option FlightRecord.t) :=
  rs ← processFlightData [recordOf headers row];
  Ret (head rs).

Record AppState := {
  flightData : list FlightRecord.t;
  stats : option FlightStats.t;
  isLoading : bool
}.

Definition alertText (e : exn) : string :=
  "Error processing file: " ++ exn_message e
  ++ ". Please ensure the file is a valid Excel file, headers match (e.g., Date, From, To, Total F\H, Total Cyc), and time values are valid (e.g., HH:MM or numeric).".

Section Upload.

Variable Date_parse : string -> option Z.

(** The body of the [try] block up to the two state setters. *)
Definition processUpload (file : upload) : outcome (list FlightRecord.t * FlightStats.t) :=
  match file with
  | Unreadable e => Throw e
  | Sheet [] => Throw headersUndefined
  | Sheet (headers :: rows) =>
      if negb (forallb (hasHeader headers) requiredHeaders) then Throw missingHeaders else
      processed ← traverse (processRow headers) rows;
      let processedData := omap id processed in
      if (length processedData =? 0)%nat then Throw noValidData else
      calculatedStats ← calculateStats Date_parse processedData;
      Ret (processedData, calculatedStats)
  end.

(** [setIsLoading(true)], then the [onload] handler: the state after it and
    the text of the alert, if one is shown. *)
Definition handleFileUpload (st : AppState) (file : upload)
  : outcome (AppState * option string) :=
  let st := {| flightData := flightData st; stats := stats st; isLoading := true |} in
  match processUpload file with
  | Ret (processedData, calculatedStats) =>
      Ret ({| flightData := processedData; stats := Some calculatedStats;
              isLoading := false |}, None)
  | Throw error =>
      Ret ({| flightData := flightData st; stats := stats st; isLoading := false |},
           Some (alertText error))
  | Beyond => Beyond
  end.

End Upload.

(** ** A reference host for dates

    The date-only form YYYY-MM-DD of the ECMAScript date-time format, read
    as midnight UTC; every other string is an invalid date here.  Used for
    concrete runs only. *)

Definition daysInMonth (y m : Z) : Z :=
  if m =? 2 then
    if ((y mod 4 =? 0) && negb (y mod 100 =? 0)) || (y mod 400 =? 0) then 29 else 28
  else if (m =? 4) || (m =? 6) || (m =? 9) || (m =? 11) then 30 else 31.

Definition decimalField (s : string) : option Z :=
  if Js.allDigits 10 s then Some (Js.mathInt 10 (Js.takeDigits 10 s)) else None.

Definition isoDateOnly (s : string) : option Z :=
  if negb ((String.length s =? 10)%nat
           && String.eqb (substring 4 1 s) "-" && String.eqb (substring 7 1 s) "-")
  then None else
  y ← decimalField (substring 0 4 s);
  m ← decimalField (substring 5 2 s);
  d ← decimalField (substring 8 2 s);
  if (1 <=? m) && (m <=? 12) && (1 <=? d) && (d <=? daysInMonth y m)
  then Some (daysFromCivil y m d * msPerDay) else None.
(** ** Vocabulary of the statements *)

(** Whether some character of [s] satisfies [p]. *)
Fixpoint hasChar (p : ascii -> bool) (s : string) : bool :=
  match s with
  | String c s' => p c || hasChar p s'
  | EmptyString => false
  end.

(** The record the upload handler gets out of one row, written out: only
    the keys that survive [canonicalKey] unchanged are ever found. *)
Definition pipelineRecord (headers : list cell) (row : RawRow) : FlightRecord.t :=
  let record := recordOf headers row in
  {| FlightRecord.ser := orElse (prop record "Ser") "1";
     FlightRecord.date := orElse (prop record "Date") "";
     FlightRecord.from := orElse (prop record "From") "";
     FlightRecord.to := orElse (prop record "To") "";
     FlightRecord.takeoffHours := 0;
     FlightRecord.takeoffMinutes := 0;
     FlightRecord.landingHours := 0;
     FlightRecord.landingMinutes := 0;
     FlightRecord.flightHours := 0;
     FlightRecord.flightMinutes := 0;
     FlightRecord.cycles := intOf (prop record "Cyc.");
     FlightRecord.totalFlightHours := 0;
     FlightRecord.totalFlightMinutes := 0;
     FlightRecord.totalCycles := 0;
     FlightRecord.tlbNumber := "";
     FlightRecord.lastDate := "";
     FlightRecord.totalHours := 0;
     FlightRecord.totalMinutes := 0;
     FlightRecord.totalCyclesSum := 0;
     FlightRecord.hoursPerMonth := intOf (prop record "HRS/MOUNTH");
     FlightRecord.cyclesPerMonth := intOf (prop record "CYC/MOUNTH") |}.

Definition pipelineResult (headers : list cell) (row : RawRow) : option FlightRecord.t :=
  if valid (pipelineRecord headers row) then Some (pipelineRecord headers row) else None.

Definition isDigit (c : ascii) : bool := bool_decide (is_Some (Js.radixDigit 10 c)).

(** The decimal digits at the front of [s], read from the value [acc] on. *)
Definition decimalValue (acc : Z) (s : string) : Z :=
  fold_left (fun a d => a * 10 + d) (Js.takeDigits 10 s) acc.

(** Reading a printed time back into minutes, with the program's own
    [parseTimeString] and [parseTimeToMinutes]. *)
Definition parseTimeBack (s : string) : outcome Z :=
  t ← parseTimeString s; Ret (parseTimeToMinutes t.1 t.2).

Definition sumOver (f : FlightRecord.t -> Z) (data : list FlightRecord.t) : Z :=
  foldr (fun r acc => f r + acc) 0 data.

Definition onRoute (route : string) (r : FlightRecord.t) : bool :=
  String.eqb (routeOf r) route.

(** Number of records of a route, and their summed minutes. *)
Definition countRoute (route : string) (data : list FlightRecord.t) : Z :=
  Z.of_nat (length (List.filter (onRoute route) data)).

Definition timeRoute (route : string) (data : list FlightRecord.t) : Z :=
  sumOver minutesOf (List.filter (onRoute route) data).

(** The distinct keys of a list in the order of their first occurrence. *)
Definition firsts (keys : list string) : list string :=
  fold_left (fun seen k => if existsb (String.eqb k) seen then seen else (seen ++ [k])%list)
            keys [].

Definition statOf (data : list FlightRecord.t) (route : string) : string * RouteStat :=
  (route, {| count := countRoute route data; totalTime := timeRoute route data |}).

(** A date the monthly loop can take: empty (skipped) or parseable. *)
Definition usableDate (Date_parse : string -> option Z) (r : FlightRecord.t) : Prop :=
  FlightRecord.date r = "" \/ is_Some (Date_parse (FlightRecord.date r)).

(** The numeric fields of a record. *)
Definition numericFields (r : FlightRecord.t) : list Z :=
  [ FlightRecord.takeoffHours r; FlightRecord.takeoffMinutes r;
    FlightRecord.landingHours r; FlightRecord.landingMinutes r;
    FlightRecord.flightHours r; FlightRecord.flightMinutes r;
    FlightRecord.cycles r;
    FlightRecord.totalFlightHours r; FlightRecord.totalFlightMinutes r;
    FlightRecord.totalCycles r;
    FlightRecord.totalHours r; FlightRecord.totalMinutes r;
    FlightRecord.totalCyclesSum r;
    FlightRecord.hoursPerMonth r; FlightRecord.cyclesPerMonth r ].

(** The fields read with [parseInt], each with the key of its cell. *)
Definition parsedFields {N} (r : @FlightRecord.poly N) : list (string * Z) :=
  [ ("T\O hrs", FlightRecord.takeoffHours r); ("T\O min", FlightRecord.takeoffMinutes r);
    ("Landing hrs", FlightRecord.landingHours r);
    ("Landing min", FlightRecord.landingMinutes r);
    ("F\H hrs", FlightRecord.flightHours r); ("F\H min", FlightRecord.flightMinutes r);
    ("Cyc.", FlightRecord.cycles r); ("Total Cyc", FlightRecord.totalCycles r);
    ("TOTAL HRS", FlightRecord.totalHours r); ("TOTAL MIN", FlightRecord.totalMinutes r);
    ("TOTAL CYC", FlightRecord.totalCyclesSum r);
    ("HRS/MOUNTH", FlightRecord.hoursPerMonth r);
    ("CYC/MOUNTH", FlightRecord.cyclesPerMonth r) ].

Definition parsedKeys : list string :=
  [ "T\O hrs"; "T\O min"; "Landing hrs"; "Landing min"; "F\H hrs"; "F\H min"; "Cyc.";
    "Total Cyc"; "TOTAL HRS"; "TOTAL MIN"; "TOTAL CYC"; "HRS/MOUNTH"; "CYC/MOUNTH" ].

Definition nonNegativeFields (r : FlightRecord.t) : Prop :=
  Forall (fun z => 0 <= z) (numericFields r).

(** Whether a text starts, after leading white space, with a minus sign. *)
Definition leadingMinus (s : string) : bool :=
  match Js.trimStart s with
  | String "-" _ => true
  | _ => false
  end.

(** The text of the Total F\H cell as the normalizer takes it, and the
    piece of it at position [i] between colons. *)
Definition totalTimeText (row : gmap string cell) : string :=
  orElse (prop row "Total F\H") "".

Definition timePart (row : gmap string cell) (i : nat) : option string :=
  Js.split ":" (totalTimeText row) !! i.

(** What a field of the colon form has to do with the piece it is read
    from: it is the number the piece denotes; it is 0 when there is no such
    piece or the piece is no number; and it is non-negative unless the
    piece starts with a minus sign. *)
Definition readFrom (part : option string) (x : Js.number) : Prop :=
  (forall p y, part = Some p -> Js.Number p = Some y -> x = y)
  /\ (part = None \/ (exists p, part = Some p /\ Js.Number p = None) -> x = Js.Whole 0)
  /\ (Js.nonNegative x \/ exists p, part = Some p /\ leadingMinus p = true).

(** The required headers a head row lacks. *)
Definition lacking (headers : list cell) : list string :=
  List.filter (fun name => negb (hasHeader headers name)) requiredHeaders.

(** [text] contains [name]. *)
Definition mentions (name text : string) : Prop :=
  exists before after, text = before ++ name ++ after.

(** A record with the given route and date and nothing else filled in. *)
Definition leg (from to date : string) : FlightRecord.t :=
  {| FlightRecord.ser := "1";
     FlightRecord.date := date;
     FlightRecord.from := from;
     FlightRecord.to := to;
     FlightRecord.takeoffHours := 0;
     FlightRecord.takeoffMinutes := 0;
     FlightRecord.landingHours := 0;
     FlightRecord.landingMinutes := 0;
     FlightRecord.flightHours := 0;
     FlightRecord.flightMinutes := 0;
     FlightRecord.cycles := 0;
     FlightRecord.totalFlightHours := 0;
     FlightRecord.totalFlightMinutes := 0;
     FlightRecord.totalCycles := 0;
     FlightRecord.tlbNumber := "";
     FlightRecord.lastDate := "";
     FlightRecord.totalHours := 0;
     FlightRecord.totalMinutes := 0;
     FlightRecord.totalCyclesSum := 0;
     FlightRecord.hoursPerMonth := 0;
     FlightRecord.cyclesPerMonth := 0 |}.

(** A head row with the required columns and three more, and some rows. *)
Definition sampleHeaders : list cell :=
  [ Some "Ser"; Some "Date"; Some "From"; Some "To"; Some "Total F\H";
    Some "Total Cyc"; Some "TOTAL HRS"; Some "Cyc." ].

Definition rowColonForm : RawRow :=
  [ None; Some "2024-01-01"; Some "CAI"; Some "JED"; Some "3:30"; Some "7"; Some "10" ].

Definition rowPlainHours : RawRow :=
  [ Some ""; Some "2024-01-10"; Some "JED"; Some "CAI"; Some ""; Some "8"; Some "10" ].

Definition rowNegativeCycles : RawRow :=
  [ Some "3"; Some "2024-01-11"; Some "CAI"; Some "JED"; None; None; None; Some "-5" ].

Definition rowBadDate : RawRow :=
  [ Some "4"; Some "unknown"; Some "CAI"; Some "JED" ].

Definition rowNoDate : RawRow :=
  [ Some "5"; None; Some "CAI"; Some "JED" ].

(** A row object keyed by the header texts as the normalizer spells them. *)
Definition sampleObject : gmap string cell :=
  {[ "Date" := Some "2024-01-10"; "From" := Some "CAI"; "To" := Some "JED";
     "Total F\H" := Some "3:30"; "TOTAL HRS" := Some "10"; "Total Cyc" := Some "7";
     "Cyc." := Some "abc" ]}.

Definition idleState : AppState :=
  {| flightData := []; stats := None; isLoading := false |}.

(** The state an earlier upload of one flight left behind. *)
Definition loadedState : AppState :=
  let data := [leg "CAI" "JED" "2023-12-31"] in
  {| flightData := data;
     stats := match calculateStats isoDateOnly data with
              | Ret s => Some s
              | _ => None
              end;
     isLoading := false |}.

(** ** Lists shown by the page (lines 444-447, 457, 478-495) *)

(** [Object.entries(stats.routeStats).sort(...).slice(0, 6)] *)
Definition topRoutes (st : FlightStats.t) : list (string * RouteStat) :=
  take 6 (sortByCountDesc (FlightStats.routeStats st)).

(** The "Average Flight" line of a route card:
    [formatMinutesToTime(Math.round(data.totalTime / data.count))]. *)
Definition routeAverage (v : RouteStat) : string :=
  formatMinutesToTime (roundDiv (totalTime v) (count v)).

(** [flightData.slice(0, 10)] and the "Flight Hours" cell of a preview
    row. *)
Definition previewRows (st : AppState) : list FlightRecord.t :=
  take 10 (flightData st).

Definition previewTime (record : FlightRecord.t) : string :=
  formatMinutesToTime
    (parseTimeToMinutes (FlightRecord.totalFlightHours record)
                        (FlightRecord.totalFlightMinutes record)).

(** ** Drop zone and file input (lines 208-229) *)

(** [s.endsWith(suffix)] *)
Definition endsWith (s suffix : string) : bool :=
  (String.length suffix <=? String.length s)%nat
  && String.eqb (substring (String.length s - String.length suffix)
                           (String.length suffix) s) suffix.

(** A dropped or selected file: its name and what decoding its bytes comes
    to. *)
Record File := { file_name : string; file_content : upload }.

Definition isExcelName (name : string) : bool :=
  endsWith name ".xlsx" || endsWith name ".xls".

Definition notExcelAlert : string := "Please upload an Excel file (.xlsx or .xls)".

Section Entry.

Variable Date_parse : string -> option Z.

(** [handleDrop]: the first file with an Excel name is uploaded; without
    one only the alert is shown.  ([isDragOver] is not part of the state
    modelled here.) *)
Definition handleDrop (st : AppState) (files : list File)
  : outcome (AppState * option string) :=
  match List.find (fun file => isExcelName (file_name file)) files with
  | Some excelFile => handleFileUpload Date_parse st (file_content excelFile)
  | None => Ret (st, Some notExcelAlert)
  end.

(** [handleFileInput]: the first selected file, whatever its name. *)
Definition handleFileInput (st : AppState) (files : list File)
  : outcome (AppState * option string) :=
  match files with
  | file :: _ => handleFileUpload Date_parse st (file_content file)
  | [] => Ret (st, None)
  end.

End Entry.

(** ** Further vocabulary *)

(** Sum of [f] over a list. *)
Definition total {A} (f : A -> Z) (l : list A) : Z :=
  foldr (fun x acc => f x + acc) 0 l.

(** The records the monthly loop looks at: those with a non-empty date. *)
Definition dated (data : list FlightRecord.t) : list FlightRecord.t :=
  List.filter (fun r => Js.nonEmpty (FlightRecord.date r)) data.

(** Entries in non-increasing order of count. *)
Definition countDescending (e1 e2 : string * RouteStat) : Prop :=
  count e2.2 <= count e1.2.

(** A file of the given name holding a small sound sheet. *)
Definition sampleFile (name : string) : File :=
  {| file_name := name;
     file_content := Sheet [sampleHeaders; rowColonForm; rowPlainHours] |}.

(** The statistics of a non-empty data set, given its month table. *)
Definition statsWith (Date_parse : string -> option Z) (data : list FlightRecord.t)
    (months : list (string * MonthStat)) : FlightStats.t :=
  let n := Z.of_nat (length data) in
  {| FlightStats.totalFlightTime := formatMinutesToTime (totalMinutesOf data);
     FlightStats.totalCycles := totalCyclesOf data;
     FlightStats.totalFlights := n;
     FlightStats.averageFlightTime := formatMinutesToTime (roundDiv (totalMinutesOf data) n);
     FlightStats.mostFrequentRoute := mostFrequentRouteOf data;
     FlightStats.totalDays := totalDaysOf Date_parse data;
     FlightStats.averageFlightsPerDay :=
       if 0 <? totalDaysOf Date_parse data
       then Some (n, totalDaysOf Date_parse data) else None;
     FlightStats.monthlyStats := months;
     FlightStats.routeStats := routeStatsOf data |}.

(** The figures of the statistics that do not list routes or months. *)
Definition figures (st : FlightStats.t)
  : string * Z * Z * string * Z * option (Z * Z) :=
  (FlightStats.totalFlightTime st, FlightStats.totalCycles st,
   FlightStats.totalFlights st, FlightStats.averageFlightTime st,
   FlightStats.totalDays st, FlightStats.averageFlightsPerDay st).

(** The key a header cell is stored under; a hole stores nothing. *)
Definition headerKey (c : cell) : option string :=
  match c with
  | Some header => Some (canonicalKey header)
  | None => None
  end.

(** The fields of a record whose cells the upload handler stores under a
    key the normalizer never asks for. *)
Definition unreadNumbers (r : FlightRecord.t) : list Z :=
  [ FlightRecord.takeoffHours r; FlightRecord.takeoffMinutes r;
    FlightRecord.landingHours r; FlightRecord.landingMinutes r;
    FlightRecord.flightHours r; FlightRecord.flightMinutes r;
    FlightRecord.totalFlightHours r; FlightRecord.totalFlightMinutes r;
    FlightRecord.totalCycles r; FlightRecord.totalHours r;
    FlightRecord.totalMinutes r; FlightRecord.totalCyclesSum r ].

Definition unreadTexts (r : FlightRecord.t) : list string :=
  [ FlightRecord.tlbNumber r; FlightRecord.lastDate r ].

(** A head row that names every column the normalizer reads, and a row
    filled in for all of them. *)
Definition fullHeaders : list cell :=
  [ Some "Ser"; Some "Date"; Some "From"; Some "To"; Some "T\O hrs"; Some "T\O min";
    Some "Landing hrs"; Some "Landing min"; Some "F\H hrs"; Some "F\H min";
    Some "Cyc."; Some "Total F\H"; Some "Total Cyc"; Some "TLB #"; Some "Last Date";
    Some "TOTAL HRS"; Some "TOTAL MIN"; Some "TOTAL CYC"; Some "HRS/MOUNTH";
    Some "CYC/MOUNTH" ].

Definition fullRow : RawRow :=
  [ Some "7"; Some "2024-03-05"; Some "CAI"; Some "JED"; Some "10"; Some "15";
    Some "12"; Some "40"; Some "2"; Some "25"; Some "1"; Some "1203:45";
    Some "811"; Some "TLB-9"; Some "2024-03-04"; Some "1203"; Some "45";
    Some "811"; Some "60"; Some "40" ].

(** Whether a text starts with a decimal digit, and with the letter x. *)
Definition leadingDigit (s : string) : bool :=
  match s with
  | String c _ => isDigit c
  | EmptyString => false
  end.

Definition leadingX (s : string) : bool :=
  match s with
  | String c _ => Ascii.eqb c "x" || Ascii.eqb c "X"
  | EmptyString => false
  end.

(** The integer a sign text and a magnitude denote. *)
Definition signed (sign : string) (n : Z) : Z :=
  if String.eqb sign "-" then - n else n.

(** Whether a text is empty or starts with a colon. *)
Definition endsComponent (s : string) : bool :=
  match s with
  | String c _ => Ascii.eqb c ":"
  | EmptyString => true
  end.


(** ** Facts about the string built-ins *)

Lemma digitChar_digit d :
  0 <= d < 10 -> Js.radixDigit 10 (Js.digitChar d) = Some d.
Proof.
  intros Hd.
  assert (d = 0 \/ d = 1 \/ d = 2 \/ d = 3 \/ d = 4 \/ d = 5 \/ d = 6 \/ d = 7
          \/ d = 8 \/ d = 9) as Hc by lia.
  repeat destruct Hc as [-> | Hc]; try subst d; reflexivity.
Qed.

Lemma isDigit_cases c :
  isDigit c = true ->
  In c ["0"; "1"; "2"; "3"; "4"; "5"; "6"; "7"; "8"; "9"]%char.
Proof.
  destruct c as [[] [] [] [] [] [] [] []]; vm_compute; intros H;
    try discriminate H; tauto.
Qed.

(** Case analysis on a character known to be a decimal digit. *)
Ltac each_digit H :=
  apply isDigit_cases in H; simpl in H;
  repeat destruct H as [<- | H]; try done.

Lemma digitsOnto_allDigits fuel : forall n acc,
  Js.allDigits 10 acc = true -> Js.allDigits 10 (Js.digitsOnto fuel n acc) = true.
Proof.
  induction fuel as [|fuel IH]; intros n acc Hacc; simpl; [done|].
  assert (Js.allDigits 10 (String (Js.digitChar (n mod 10)) acc) = true) as H.
  { cbn [Js.allDigits]. rewrite digitChar_digit by (apply Z.mod_pos_bound; lia).
    by rewrite Hacc. }
  destruct (n <? 10); [exact H | by apply IH].
Qed.

Lemma digitsOnto_nonEmpty fuel : forall n acc,
  Js.nonEmpty acc = true -> Js.nonEmpty (Js.digitsOnto fuel n acc) = true.
Proof.
  induction fuel as [|fuel IH]; intros n acc Hacc; simpl; [done|].
  destruct (n <? 10); [done | by apply IH].
Qed.

Lemma digitsOnto_value fuel : forall n acc,
  0 <= n < 2 ^ Z.of_nat fuel ->
  decimalValue 0 (Js.digitsOnto fuel n acc) = decimalValue n acc.
Proof.
  induction fuel as [|fuel IH]; intros n acc Hn.
  - simpl in *. by replace n with 0 by lia.
  - cbn [Js.digitsOnto].
    assert (decimalValue (n / 10) (String (Js.digitChar (n mod 10)) acc)
            = decimalValue n acc) as Hstep.
    { unfold decimalValue. cbn [Js.takeDigits].
      rewrite digitChar_digit by (apply Z.mod_pos_bound; lia).
      cbn [fold_left]. f_equal. pose proof (Z.div_mod n 10). lia. }
    destruct (n <? 10) eqn:E.
    + apply Z.ltb_lt in E. rewrite <- Hstep.
      rewrite (Z.div_small n 10) by lia. reflexivity.
    + apply Z.ltb_ge in E. rewrite IH; [exact Hstep|].
      rewrite Nat2Z.inj_succ, Z.pow_succ_r in Hn by lia.
      split; [apply Z.div_pos; lia|].
      apply Z.div_lt_upper_bound; lia.
Qed.

Lemma digitsOf_allDigits n : Js.allDigits 10 (Js.digitsOf n) = true.
Proof. by apply digitsOnto_allDigits. Qed.

Lemma digitsOf_nonEmpty n : Js.nonEmpty (Js.digitsOf n) = true.
Proof.
  unfold Js.digitsOf. cbn [Js.digitsOnto].
  destruct (n <? 10); [done | by apply digitsOnto_nonEmpty].
Qed.

Lemma digitsOf_value n : 0 <= n -> decimalValue 0 (Js.digitsOf n) = n.
Proof.
  intros Hn. unfold Js.digitsOf. rewrite digitsOnto_value; [reflexivity|].
  split; [done|]. rewrite Nat2Z.inj_succ, Z2Nat.id by apply Z.log2_nonneg.
  destruct (Z.eq_dec n 0) as [->|]; [reflexivity|].
  apply Z.log2_spec. lia.
Qed.

Lemma toString_nonEmpty z : Js.nonEmpty (Js.toString z) = true.
Proof. unfold Js.toString. destruct (z <? 0); [done | apply digitsOf_nonEmpty]. Qed.

(** Digits are not white space, so trimming leaves a digit string alone. *)
Lemma trimEnd_digits s : Js.allDigits 10 s = true -> Js.trimEnd s = s.
Proof.
  induction s as [|c s IH]; [done|]. cbn [Js.allDigits Js.trimEnd].
  intros [Hc Hs]%andb_prop. rewrite IH by done.
  destruct s; [|done]. each_digit Hc.
Qed.

Lemma dropDigits_digits s : Js.allDigits 10 s = true -> Js.dropDigits 10 s = "".
Proof.
  induction s as [|c s IH]; [done|]. cbn [Js.allDigits Js.dropDigits].
  intros [Hc Hs]%andb_prop. apply bool_decide_eq_true in Hc as [d Hd].
  rewrite Hd. by apply IH.
Qed.

Lemma Number_digits s :
  Js.nonEmpty s = true -> Js.allDigits 10 s = true ->
  Js.Number s = Some (Js.Whole (decimalValue 0 s)).
Proof.
  intros Hne Hd. unfold Js.Number, Js.trim.
  destruct s as [|c s]; [discriminate|].
  pose proof Hd as Hd'. cbn [Js.allDigits] in Hd'. apply andb_prop in Hd' as [Hc Hs].
  assert (Js.trimStart (String c s) = String c s) as -> by each_digit Hc.
  rewrite trimEnd_digits by done. cbn [Js.nonEmpty negb].
  assert (Js.radixLiteral (String c s) = None) as ->.
  { destruct s as [|c' s]; [by destruct c as [[] [] [] [] [] [] [] []]|].
    cbn [Js.allDigits] in Hs. apply andb_prop in Hs as [Hc' _].
    apply isDigit_cases in Hc, Hc'. simpl in Hc, Hc'.
    repeat destruct Hc as [<- | Hc]; try done;
      repeat destruct Hc' as [<- | Hc']; done. }
  assert (Js.stripSign (String c s) = (false, String c s)) as -> by each_digit Hc.
  assert (String.eqb (String c s) "Infinity" = false) as -> by each_digit Hc.
  unfold Js.decimalLiteral. rewrite dropDigits_digits by done.
  rewrite app_nil_r. unfold decimalValue, Js.mathInt.
  destruct (Js.takeDigits 10 (String c s)) as [|d ds] eqn:E.
  { cbn [Js.takeDigits] in E. apply bool_decide_eq_true in Hc as [d Hd']. by rewrite Hd' in E. }
  cbn [Js.exponentPart length]. unfold Js.ofDecimal. simpl (0 <=? _).
  cbv iota. do 2 f_equal. change (0 - Z.of_nat 0) with 0. lia.
Qed.

Lemma digits_no_colon s : Js.allDigits 10 s = true -> Js.includes ":" s = false.
Proof.
  induction s as [|c s IH]; [done|]. cbn [Js.allDigits Js.includes].
  intros [Hc Hs]%andb_prop. rewrite IH by done. each_digit Hc.
Qed.

Lemma split_plain s : Js.includes ":" s = false -> Js.split ":" s = [s].
Proof.
  induction s as [|c s IH]; [done|]. cbn [Js.includes Js.split].
  intros [Hc Hs]%orb_false_elim. rewrite Hc, IH by done. reflexivity.
Qed.

Lemma split_pair a b :
  Js.includes ":" a = false -> Js.includes ":" b = false ->
  Js.split ":" (a ++ ":" ++ b) = [a; b].
Proof.
  intros Ha Hb. induction a as [|c a IH].
  - simpl. by rewrite split_plain.
  - cbn [Js.includes] in Ha. apply orb_false_elim in Ha as [Hc Ha].
    change (String c a ++ ":" ++ b) with (String c (a ++ ":" ++ b)).
    cbn [Js.split]. rewrite Hc, IH by done. reflexivity.
Qed.

Lemma padStart2_digits s :
  Js.nonEmpty s = true -> Js.allDigits 10 s = true ->
  Js.nonEmpty (Js.padStart2 s) = true /\ Js.allDigits 10 (Js.padStart2 s) = true
  /\ decimalValue 0 (Js.padStart2 s) = decimalValue 0 s.
Proof.
  intros Hne Hd. destruct s as [|c [|c' s]]; [discriminate| |done].
  cbn [Js.padStart2]. split; [done|]. split; [|done].
  cbn [Js.allDigits] in *. by rewrite Hd.
Qed.

Lemma append_cons x a b : String x a ++ b = String x (a ++ b).
Proof. reflexivity. Qed.

Lemma append_assoc a b c : (a ++ b) ++ c = a ++ b ++ c.
Proof. induction a as [|x a IH]; [done|]. by rewrite !append_cons, IH. Qed.

Lemma append_nonEmpty a b : Js.nonEmpty a = true -> Js.nonEmpty (a ++ b) = true.
Proof. by destruct a. Qed.

Lemma component_digits parts i s :
  parts !! i = Some s -> Js.nonEmpty s = true -> Js.allDigits 10 s = true ->
  component parts i = Ret (decimalValue 0 s).
Proof. intros Hp Hne Hd. unfold component. by rewrite Hp, Number_digits. Qed.

(** Reading back what [formatMinutesToTime] printed. *)
Lemma parseTimeBack_format n :
  0 <= n -> parseTimeBack (formatMinutesToTime n) = Ret n.
Proof.
  intros Hn. unfold parseTimeBack, formatMinutesToTime.
  rewrite Z.rem_mod_nonneg by lia.
  pose proof (Z.div_pos n 60 Hn ltac:(lia)) as Hq.
  pose proof (Z.mod_pos_bound n 60 ltac:(lia)) as Hr.
  unfold Js.toString.
  rewrite (proj2 (Z.ltb_ge (n / 60) 0)), (proj2 (Z.ltb_ge (n mod 60) 0)) by lia.
  destruct (padStart2_digits (Js.digitsOf (n mod 60)) (digitsOf_nonEmpty _)
              (digitsOf_allDigits _)) as (Hne & Hd & Hv).
  unfold parseTimeString.
  rewrite append_nonEmpty by apply digitsOf_nonEmpty. cbn [negb].
  rewrite split_pair
    by (apply digits_no_colon; first [apply digitsOf_allDigits | exact Hd]).
  rewrite (component_digits _ 0%nat (Js.digitsOf (n / 60)))
    by first [reflexivity | apply digitsOf_nonEmpty | apply digitsOf_allDigits].
  rewrite (component_digits _ 1%nat (Js.padStart2 (Js.digitsOf (n mod 60))))
    by first [reflexivity | exact Hne | exact Hd].
  rewrite Hv, !digitsOf_value by lia. simpl.
  unfold parseTimeToMinutes. f_equal. pose proof (Z.div_mod n 60). lia.
Qed.

Lemma fold_sum (f : FlightRecord.t -> Z) data : forall acc,
  fold_left (fun sum record => sum + f record) data acc = acc + sumOver f data.
Proof.
  induction data as [|r data IH]; intros acc; simpl; [lia|]. rewrite IH. lia.
Qed.

Lemma totalMinutesOf_sum data : totalMinutesOf data = sumOver minutesOf data.
Proof. unfold totalMinutesOf. by rewrite fold_sum. Qed.

Lemma sumOver_minutes_nonneg data : 0 <= sumOver minutesOf data.
Proof.
  induction data as [|r data IH]; simpl; [lia|].
  unfold minutesOf at 1, parseTimeToMinutes. lia.
Qed.

(** ** The records of the upload handler *)

Lemma removeChars_clean p s : hasChar p (removeChars p s) = false.
Proof.
  induction s as [|c s IH]; simpl; [done|].
  destruct (p c) eqn:E; simpl; [done|]. by rewrite E.
Qed.

Lemma canonicalKey_clean header : hasChar strippedChar (canonicalKey header) = false.
Proof. apply removeChars_clean. Qed.

Lemma canonicalKey_neq header key :
  hasChar strippedChar key = true -> canonicalKey header <> key.
Proof. intros H E. rewrite <- E, canonicalKey_clean in H. discriminate. Qed.

Lemma assign_ne k v record key : k <> key -> assign k v record !! key = record !! key.
Proof.
  intros Hk. unfold assign. destruct (String.eqb k "__proto__"); [done|].
  by apply lookup_insert_ne.
Qed.

Lemma assign_eq k v record : k <> "__proto__" -> assign k v record !! k = Some v.
Proof.
  intros Hk%String.eqb_neq. unfold assign. rewrite Hk. apply lookup_insert_eq.
Qed.

(** A key with a backslash or a blank is never a property of a record the
    upload handler builds. *)
Lemma fillFrom_miss key headers : forall index row record,
  hasChar strippedChar key = true ->
  fillFrom index headers row record !! key = record !! key.
Proof.
  induction headers as [|[h|] headers IH]; intros index row record Hk; simpl.
  - done.
  - rewrite IH by done. apply assign_ne. by apply canonicalKey_neq.
  - by apply IH.
Qed.

Lemma prop_recordOf_miss key headers row :
  hasChar strippedChar key = true -> prop (recordOf headers row) key = None.
Proof.
  intros Hk. unfold prop, recordOf. by rewrite fillFrom_miss, lookup_empty.
Qed.

Lemma normalize_recordOf headers row :
  normalize (recordOf headers row) 0 = Ret (pipelineRecord headers row).
Proof.
  unfold normalize, pipelineRecord.
  rewrite !(prop_recordOf_miss "Total F\H"), !(prop_recordOf_miss "TOTAL HRS"),
    !(prop_recordOf_miss "T\O hrs"), !(prop_recordOf_miss "T\O min"),
    !(prop_recordOf_miss "Landing hrs"), !(prop_recordOf_miss "Landing min"),
    !(prop_recordOf_miss "F\H hrs"), !(prop_recordOf_miss "F\H min"),
    !(prop_recordOf_miss "Total Cyc"), !(prop_recordOf_miss "TLB #"),
    !(prop_recordOf_miss "Last Date"), !(prop_recordOf_miss "TOTAL MIN"),
    !(prop_recordOf_miss "TOTAL CYC") by reflexivity.
  reflexivity.
Qed.

(** What the upload handler makes of one row; it never throws. *)
Lemma processRow_pipeline headers row :
  processRow headers row = Ret (pipelineResult headers row).
Proof.
  unfold processRow, processFlightData, pipelineResult. simpl.
  rewrite normalize_recordOf. simpl.
  by destruct (valid (pipelineRecord headers row)).
Qed.

Local Open Scope list_scope.

(** ** Route statistics *)

Lemma existsb_eqb_In k l : existsb (String.eqb k) l = true <-> In k l.
Proof.
  rewrite existsb_exists. split.
  - intros (x & Hx & ->%String.eqb_eq). exact Hx.
  - intros H. exists k. by rewrite String.eqb_refl.
Qed.

Lemma firsts_snoc l k :
  firsts (l ++ [k]) = if existsb (String.eqb k) (firsts l) then firsts l else firsts l ++ [k].
Proof. unfold firsts. by rewrite fold_left_app. Qed.

Lemma firsts_In l : forall k, In k (firsts l) <-> In k l.
Proof.
  induction l as [|a l IH] using rev_ind; intros k; [done|].
  rewrite firsts_snoc, in_app_iff. simpl.
  destruct (existsb _ _) eqn:E.
  - apply existsb_eqb_In in E. rewrite IH in *. intuition (subst; auto).
  - rewrite in_app_iff, IH. simpl. tauto.
Qed.

Lemma firsts_NoDup l : List.NoDup (firsts l).
Proof.
  induction l as [|a l IH] using rev_ind; [constructor|].
  rewrite firsts_snoc. destruct (existsb _ _) eqn:E; [done|].
  apply List.NoDup_app; [done | repeat constructor; simpl; tauto |].
  intros x Hx [<-|[]]. apply existsb_eqb_In in Hx. congruence.
Qed.

(** Where a key stands in [firsts], every key in front of its first
    occurrence stands in front of it. *)
Lemma firsts_split l : forall m1 k m2,
  firsts l = m1 ++ k :: m2 ->
  exists pre post, l = pre ++ k :: post /\ forall x, In x pre -> In x m1.
Proof.
  induction l as [|a l IH] using rev_ind; intros m1 k m2 H.
  - by destruct m1.
  - rewrite firsts_snoc in H. destruct (existsb _ _) eqn:E.
    + destruct (IH _ _ _ H) as (pre & post & -> & Hpre).
      exists pre, (post ++ [a]). by rewrite <- app_assoc.
    + destruct m2 as [|b m2] using rev_ind.
      * apply List.app_inj_tail in H as [<- <-]. exists l, []. split; [done|].
        intros x. apply firsts_In.
      * clear IHm2. rewrite app_comm_cons, app_assoc in H.
        apply List.app_inj_tail in H as [H <-].
        destruct (IH _ _ _ H) as (pre & post & -> & Hpre).
        exists pre, (post ++ [a]). by rewrite <- app_assoc.
Qed.

Lemma countRoute_snoc route data r :
  countRoute route (data ++ [r]) = countRoute route data + (if onRoute route r then 1 else 0).
Proof.
  unfold countRoute. rewrite List.filter_app, length_app. simpl.
  destruct (onRoute route r); simpl; lia.
Qed.

Lemma sumOver_app f a b : sumOver f (a ++ b) = sumOver f a + sumOver f b.
Proof. induction a as [|x a IH]; simpl; [done|]. rewrite IH. lia. Qed.

Lemma timeRoute_snoc route data r :
  timeRoute route (data ++ [r])
  = timeRoute route data + (if onRoute route r then minutesOf r else 0).
Proof.
  unfold timeRoute. rewrite List.filter_app, sumOver_app. simpl.
  destruct (onRoute route r); simpl; lia.
Qed.

Lemma statOf_other data r route :
  route <> routeOf r -> statOf (data ++ [r]) route = statOf data route.
Proof.
  intros Hne. unfold statOf. rewrite countRoute_snoc, timeRoute_snoc.
  unfold onRoute. destruct (String.eqb_spec (routeOf r) route); [congruence|].
  do 2 f_equal; lia.
Qed.

Lemma addRoute_known data r keys :
  List.NoDup keys -> In (routeOf r) keys ->
  addRoute (routeOf r) (minutesOf r) (map (statOf data) keys)
  = map (statOf (data ++ [r])) keys.
Proof.
  induction keys as [|k keys IH]; intros Hnd Hin; [done|].
  apply List.NoDup_cons_iff in Hnd as [Hk Hnd]. simpl.
  destruct (String.eqb_spec k (routeOf r)) as [->|Hne].
  - f_equal.
    + unfold statOf. rewrite countRoute_snoc, timeRoute_snoc.
      unfold onRoute. by rewrite String.eqb_refl.
    + apply map_ext_in. intros k' Hk'. symmetry. apply statOf_other. congruence.
  - rewrite statOf_other by done. f_equal. apply IH; [done|].
    destruct Hin; congruence.
Qed.

Lemma countRoute_absent route data :
  ~ In route (map routeOf data) -> countRoute route data = 0 /\ timeRoute route data = 0.
Proof.
  intros Hn. unfold countRoute, timeRoute.
  assert (List.filter (onRoute route) data = []) as ->; [|done].
  induction data as [|r data IH]; [done|]. simpl in *.
  unfold onRoute at 1. destruct (String.eqb_spec (routeOf r) route); [tauto|].
  apply IH. tauto.
Qed.

Lemma addRoute_new data r keys :
  ~ In (routeOf r) (map routeOf data) -> ~ In (routeOf r) keys ->
  addRoute (routeOf r) (minutesOf r) (map (statOf data) keys)
  = map (statOf (data ++ [r])) (keys ++ [routeOf r]).
Proof.
  intros Hd. induction keys as [|k keys IH]; intros Hin; simpl.
  - unfold statOf. rewrite countRoute_snoc, timeRoute_snoc.
    destruct (countRoute_absent _ _ Hd) as [-> ->].
    unfold onRoute. by rewrite String.eqb_refl.
  - destruct (String.eqb_spec k (routeOf r)) as [->|Hne]; [simpl in Hin; tauto|].
    rewrite statOf_other by done. f_equal. apply IH. simpl in Hin. tauto.
Qed.

Lemma routeStatsOf_snoc data r :
  routeStatsOf (data ++ [r]) = addRoute (routeOf r) (minutesOf r) (routeStatsOf data).
Proof. unfold routeStatsOf. by rewrite fold_left_app. Qed.

(** The entries of [routeStats]: one per route, in the order the routes
    first occur, each with the number and the minutes of its records. *)
Lemma routeStatsOf_spec data :
  routeStatsOf data = map (statOf data) (firsts (map routeOf data)).
Proof.
  induction data as [|r data IH] using rev_ind; [done|].
  rewrite routeStatsOf_snoc, IH, List.map_app. cbn [map]. rewrite firsts_snoc.
  destruct (existsb _ _) eqn:E.
  - apply existsb_eqb_In in E. apply addRoute_known; [apply firsts_NoDup | done].
  - assert (~ In (routeOf r) (firsts (map routeOf data))) as Hn.
    { intros H%existsb_eqb_In. congruence. }
    apply addRoute_new; [by rewrite <- firsts_In | done].
Qed.

(** The head of the sorted entries is the first entry of largest count. *)
Lemma sortByCountDesc_head entries :
  entries <> [] ->
  exists l1 h l2 rest,
    entries = l1 ++ h :: l2 /\ sortByCountDesc entries = h :: rest
    /\ (forall e, In e l1 -> count e.2 < count h.2)
    /\ (forall e, In e l2 -> count e.2 <= count h.2).
Proof.
  induction entries as [|e entries IH]; [done|]. intros _.
  destruct entries as [|e' entries'].
  - exists [], e, [], []. simpl. tauto.
  - destruct IH as (l1 & h & l2 & rest & Hs & Hh & H1 & H2); [done|].
    change (sortByCountDesc (e :: e' :: entries'))
      with (insertByCount e (sortByCountDesc (e' :: entries'))).
    rewrite Hh, Hs. cbn [insertByCount].
    destruct (count e.2 <? count h.2) eqn:E.
    + apply Z.ltb_lt in E. exists (e :: l1), h, l2, (insertByCount e rest).
      split; [done|]. split; [done|]. split; [|done].
      intros x [<-|Hx]; auto.
    + apply Z.ltb_ge in E. exists [], e, (l1 ++ h :: l2), (h :: rest).
      split; [done|]. split; [done|]. split; [intros x []|].
      intros x [Hx|[<-|Hx]]%in_app_iff; [specialize (H1 _ Hx)|..|specialize (H2 _ Hx)]; lia.
Qed.

Lemma routeOf_nonEmpty r : Js.nonEmpty (routeOf r) = true.
Proof. unfold routeOf. by destruct (FlightRecord.from r). Qed.

Lemma mostFrequentRouteOf_first_max data :
  data <> [] ->
  exists pre r post,
    data = pre ++ r :: post
    /\ mostFrequentRouteOf data = routeOf r
    /\ (forall x, In x data -> countRoute (routeOf x) data <= countRoute (routeOf r) data)
    /\ (forall x, In x pre -> countRoute (routeOf x) data < countRoute (routeOf r) data).
Proof.
  intros Hne. unfold mostFrequentRouteOf.
  destruct (sortByCountDesc_head (routeStatsOf data)) as (l1 & h & l2 & rest & Hs & Hh & H1 & H2).
  { rewrite routeStatsOf_spec. destruct data as [|r data]; [done|].
    intros Hnil%map_eq_nil.
    assert (In (routeOf r) (firsts (map routeOf (r :: data)))) as Hin
      by (apply firsts_In; simpl; auto).
    by rewrite Hnil in Hin. }
  rewrite Hh. rewrite routeStatsOf_spec in Hs.
  apply List.map_eq_app in Hs as (m1 & m2' & Hf & <- & Hm2).
  apply List.map_eq_cons in Hm2 as (k & m2 & -> & <- & <-).
  destruct (firsts_split _ _ _ _ Hf) as (pre & post & Hk & Hpre).
  apply List.map_eq_app in Hk as (dpre & dpost' & -> & <- & Hk).
  apply List.map_eq_cons in Hk as (r & dpost & -> & <- & <-).
  exists dpre, r, dpost. split; [done|]. split.
  { simpl. pose proof (routeOf_nonEmpty r). by destruct (routeOf r). }
  assert (forall route, In route m1 -> countRoute route (dpre ++ r :: dpost)
                                       < countRoute (routeOf r) (dpre ++ r :: dpost)) as Hlt.
  { intros route Hr. apply (H1 (statOf _ route)). by apply in_map. }
  split.
  - intros x Hx.
    assert (In (routeOf x) (m1 ++ routeOf r :: m2)) as Hin.
    { rewrite <- Hf. apply firsts_In. by apply in_map. }
    apply in_app_iff in Hin as [Hin|[<-|Hin]]; [specialize (Hlt _ Hin); lia | lia |].
    apply (H2 (statOf _ (routeOf x))). by apply in_map.
  - intros x Hx. apply Hlt, Hpre. by apply in_map.
Qed.

(** ** Monthly loop and day span *)

Section AggregatorFacts.

Variable Date_parse : string -> option Z.

Lemma nonEmpty_false s : Js.nonEmpty s = false <-> s = "".
Proof. destruct s; simpl; split; congruence. Qed.

Lemma monthlyFrom_throws data : forall entries r,
  In r data -> FlightRecord.date r <> "" -> Date_parse (FlightRecord.date r) = None ->
  monthlyFrom Date_parse entries data = Throw invalidTime.
Proof.
  induction data as [|x data IH]; intros entries r Hin Hne Hp; [destruct Hin|].
  cbn [monthlyFrom]. destruct (Js.nonEmpty (FlightRecord.date x)) eqn:E.
  - unfold isoOf. destruct (Date_parse (FlightRecord.date x)) eqn:Ex.
    + simpl. destruct Hin as [->|Hin]; [congruence|]. by apply (IH _ r).
    + reflexivity.
  - destruct Hin as [->|Hin]; [by apply nonEmpty_false in E|]. by apply (IH _ r).
Qed.

Lemma monthlyFrom_returns data : forall entries,
  Forall (usableDate Date_parse) data -> exists months, monthlyFrom Date_parse entries data = Ret months.
Proof.
  induction data as [|x data IH]; intros entries Hall; [by eexists|].
  apply Forall_cons_1 in Hall as [Hx Hall]. cbn [monthlyFrom].
  destruct (Js.nonEmpty (FlightRecord.date x)) eqn:E; [|by apply IH].
  destruct Hx as [Hx|[t Ht]]; [rewrite Hx in E; discriminate|].
  unfold isoOf. rewrite Ht. simpl. by apply IH.
Qed.

Lemma calculateStats_throws data r :
  In r data -> FlightRecord.date r <> "" -> Date_parse (FlightRecord.date r) = None ->
  calculateStats Date_parse data = Throw invalidTime.
Proof.
  intros Hin Hne Hp. destruct data as [|x data]; [destruct Hin|].
  unfold calculateStats. by rewrite (monthlyFrom_throws _ _ r).
Qed.

Lemma calculateStats_returns data :
  Forall (usableDate Date_parse) data ->
  exists st, calculateStats Date_parse data = Ret st
    /\ FlightStats.totalFlightTime st = formatMinutesToTime (totalMinutesOf data)
    /\ FlightStats.mostFrequentRoute st = mostFrequentRouteOf data
    /\ FlightStats.totalDays st = totalDaysOf Date_parse data.
Proof.
  intros Hall. destruct data as [|x data].
  - eexists. split; [reflexivity|]. done.
  - destruct (monthlyFrom_returns (x :: data) [] Hall) as [months Hm].
    unfold calculateStats. rewrite Hm. eexists. split; [reflexivity|]. done.
Qed.

Lemma calculateStats_fields data st :
  calculateStats Date_parse data = Ret st ->
  FlightStats.totalFlightTime st = formatMinutesToTime (totalMinutesOf data)
  /\ FlightStats.mostFrequentRoute st = mostFrequentRouteOf data
  /\ FlightStats.totalDays st = totalDaysOf Date_parse data
  /\ FlightStats.totalCycles st = totalCyclesOf data
  /\ FlightStats.totalFlights st = Z.of_nat (length data)
  /\ FlightStats.routeStats st = routeStatsOf data.
Proof.
  destruct data as [|x data].
  - intros [= <-]. done.
  - unfold calculateStats.
    destruct (monthlyFrom Date_parse [] (x :: data)); simpl; [|done..].
    intros [= <-]. done.
Qed.

Lemma calculateStats_not_Beyond data : calculateStats Date_parse data <> Beyond.
Proof.
  destruct data as [|x data]; [done|]. unfold calculateStats.
  assert (forall d e, monthlyFrom Date_parse e d <> Beyond) as H.
  { induction d as [|y d IH]; intros e; [done|]. cbn [monthlyFrom].
    destruct (Js.nonEmpty _); [|apply IH]. unfold isoOf.
    destruct (Date_parse _); [apply IH | done]. }
  specialize (H (x :: data) []).
  destruct (monthlyFrom Date_parse [] (x :: data)); done.
Qed.

(** [maxOf] and [minOf] pick the largest and the smallest element. *)
Lemma maxOf_spec ts : forall t,
  In (maxOf t ts) (t :: ts) /\ forall x, In x (t :: ts) -> x <= maxOf t ts.
Proof.
  induction ts as [|u ts IH]; intros t; unfold maxOf in *; simpl.
  - split; [auto|]. intros x [->|[]]. lia.
  - destruct (IH (Z.max t u)) as [Hin Hle]. split.
    + destruct Hin as [Hin|Hin]; [|auto]. rewrite <- Hin. lia.
    + intros x Hx. assert (x <= Z.max t u \/ In x ts) as [H|H].
      { destruct Hx as [->|[->|Hx]]; [left; lia | left; lia | by right]. }
      * specialize (Hle (Z.max t u) (or_introl eq_refl)). lia.
      * apply Hle. by right.
Qed.

Lemma minOf_spec ts : forall t,
  In (minOf t ts) (t :: ts) /\ forall x, In x (t :: ts) -> minOf t ts <= x.
Proof.
  induction ts as [|u ts IH]; intros t; unfold minOf in *; simpl.
  - split; [auto|]. intros x [->|[]]. lia.
  - destruct (IH (Z.min t u)) as [Hin Hle]. split.
    + destruct Hin as [Hin|Hin]; [|auto]. rewrite <- Hin. lia.
    + intros x Hx. assert (Z.min t u <= x \/ In x ts) as [H|H].
      { destruct Hx as [->|[->|Hx]]; [left; lia | left; lia | by right]. }
      * specialize (Hle (Z.min t u) (or_introl eq_refl)). lia.
      * apply Hle. by right.
Qed.

(** [ceilDiv n d] is the least integer not below [n / d]. *)
Lemma ceilDiv_spec n d : 0 < d -> (ceilDiv n d - 1) * d < n <= ceilDiv n d * d.
Proof.
  intros Hd. unfold ceilDiv.
  pose proof (Z.div_mod (- n) d ltac:(lia)).
  pose proof (Z.mod_pos_bound (- n) d Hd). nia.
Qed.

(** The day span, whenever a date parses. *)
Lemma totalDaysOf_span data :
  datesOf Date_parse data <> [] ->
  exists lo hi,
    In lo (datesOf Date_parse data) /\ In hi (datesOf Date_parse data)
    /\ (forall t, In t (datesOf Date_parse data) -> lo <= t <= hi)
    /\ totalDaysOf Date_parse data = ceilDiv (hi - lo) msPerDay + 1.
Proof.
  unfold totalDaysOf. destruct (datesOf Date_parse data) as [|t ts]; [done|]. intros _.
  destruct (maxOf_spec ts t) as [Hmax Hle], (minOf_spec ts t) as [Hmin Hge].
  exists (minOf t ts), (maxOf t ts). repeat split; auto.
Qed.

Lemma totalDaysOf_none data :
  datesOf Date_parse data = [] -> totalDaysOf Date_parse data = 0.
Proof. unfold totalDaysOf. by intros ->. Qed.

(** Records with an empty date are skipped by the monthly loop and, when
    the host rejects the empty string, by the day span; they still count in
    the totals. *)
Lemma monthlyFrom_skips_empty data : forall entries,
  (forall r, In r data -> FlightRecord.date r = "") ->
  monthlyFrom Date_parse entries data = Ret entries.
Proof.
  induction data as [|x data IH]; intros entries H; [done|]. cbn [monthlyFrom].
  rewrite (H x) by (by left). simpl. apply IH. intros r Hr. apply H. by right.
Qed.

Lemma calculateStats_empty_dates data :
  data <> [] ->
  (forall r, In r data -> FlightRecord.date r = "") ->
  Date_parse "" = None ->
  exists st,
    calculateStats Date_parse data = Ret st
    /\ FlightStats.monthlyStats st = []
    /\ FlightStats.totalDays st = 0
    /\ FlightStats.totalFlights st = Z.of_nat (length data)
    /\ FlightStats.totalFlightTime st = formatMinutesToTime (sumOver minutesOf data).
Proof.
  intros Hne Hempty Hhost. destruct data as [|x data]; [done|].
  unfold calculateStats. rewrite monthlyFrom_skips_empty by done.
  eexists. split; [reflexivity|].
  cbn [FlightStats.monthlyStats FlightStats.totalDays FlightStats.totalFlights
       FlightStats.totalFlightTime].
  split; [done|].
  assert (datesOf Date_parse (x :: data) = []) as Hd.
  { unfold datesOf. clear Hne. induction (x :: data) as [|y l IH]; [done|].
    cbn. rewrite (Hempty y) by (by left). rewrite Hhost. simpl.
    apply IH. intros r Hr. apply Hempty. by right. }
  split; [by apply totalDaysOf_none|]. split; [done|].
  by rewrite totalMinutesOf_sum.
Qed.

(** Dates that all denote one instant span one day. *)
Lemma totalDaysOf_same_instant data t :
  datesOf Date_parse data <> [] ->
  (forall u, In u (datesOf Date_parse data) -> u = t) ->
  totalDaysOf Date_parse data = 1.
Proof.
  intros Hne Hsame.
  destruct (totalDaysOf_span data Hne) as (lo & hi & Hlo & Hhi & _ & ->).
  rewrite (Hsame lo Hlo), (Hsame hi Hhi), Z.sub_diag. reflexivity.
Qed.

End AggregatorFacts.

(** ** Signs of the parsed fields *)

Lemma radixDigit_nonneg radix c d : Js.radixDigit radix c = Some d -> 0 <= d.
Proof.
  unfold Js.radixDigit, Js.digitValue.
  repeat match goal with
         | |- context [if ?b then _ else _] => destruct b eqn:?
         end; intros [= <-]; lia.
Qed.

Lemma takeDigits_nonneg radix s : Forall (fun d => 0 <= d) (Js.takeDigits radix s).
Proof.
  induction s as [|c s IH]; simpl; [constructor|].
  destruct (Js.radixDigit radix c) eqn:E; constructor; [|done].
  by eapply radixDigit_nonneg.
Qed.

Lemma digitFold_nonneg radix ds : forall acc,
  0 <= radix -> 0 <= acc -> Forall (fun d => 0 <= d) ds ->
  0 <= fold_left (fun a d => a * radix + d) ds acc.
Proof.
  induction ds as [|d ds IH]; intros acc Hr Hacc Hds; simpl; [done|].
  apply Forall_cons_1 in Hds as [Hd Hds]. apply IH; [done | nia | done].
Qed.

Lemma mathInt_takeDigits_nonneg radix s :
  0 <= radix -> 0 <= Js.mathInt radix (Js.takeDigits radix s).
Proof. intros Hr. apply digitFold_nonneg; [done | lia | apply takeDigits_nonneg]. Qed.

Lemma trimStart_head s :
  Js.trimStart s = "" \/ exists c t, Js.trimStart s = String c t /\ Js.isWhiteSpace c = false.
Proof.
  induction s as [|c s IH]; [by left|]. cbn [Js.trimStart].
  destruct (Js.isWhiteSpace c) eqn:E; [done|]. right. by exists c, s.
Qed.

Lemma trimEnd_head c s :
  Js.isWhiteSpace c = false -> exists t, Js.trimEnd (String c s) = String c t.
Proof.
  intros Hc. cbn [Js.trimEnd]. rewrite Hc. destruct (Js.trimEnd s); by eexists.
Qed.

(** Without a leading minus sign the text has no sign to strip, or a plus. *)
Lemma stripSign_plain s :
  leadingMinus s = false -> exists u, Js.stripSign (Js.trimStart s) = (false, u).
Proof.
  unfold leadingMinus. destruct (Js.trimStart s) as [|c t]; [by eexists|].
  unfold Js.stripSign. destruct c as [[] [] [] [] [] [] [] []]; try discriminate; by eexists.
Qed.

Lemma stripSign_trim_plain s :
  leadingMinus s = false -> exists u, Js.stripSign (Js.trim s) = (false, u).
Proof.
  unfold leadingMinus, Js.trim.
  destruct (trimStart_head s) as [->|(c & t & -> & Hc)]; [by eexists|].
  destruct (trimEnd_head c t Hc) as [t' ->].
  unfold Js.stripSign. destruct c as [[] [] [] [] [] [] [] []]; try discriminate; by eexists.
Qed.

Lemma parseInt_nonneg s z :
  leadingMinus s = false -> Js.parseInt s = Some z -> 0 <= z.
Proof.
  intros Hs. unfold Js.parseInt. destruct (stripSign_plain _ Hs) as [s' ->].
  destruct (Js.stripHexPrefix s') as [s''|];
    [pose proof (mathInt_takeDigits_nonneg 16 s'' ltac:(lia))
    |pose proof (mathInt_takeDigits_nonneg 10 s' ltac:(lia))];
    destruct (Js.takeDigits _ _); intros [= <-]; done.
Qed.

(** A field read with [parseInt] is negative only if its cell starts with
    a minus sign. *)
Lemma intOf_negative c :
  intOf c < 0 -> exists s, c = Some s /\ leadingMinus s = true.
Proof.
  unfold intOf. destruct c as [[|a s]|]; [vm_compute; discriminate| |vm_compute; discriminate].
  simpl orElse. intros H. exists (String a s). split; [done|].
  destruct (leadingMinus (String a s)) eqn:E; [done|].
  destruct (Js.parseInt (String a s)) as [z|] eqn:Ez; [|lia].
  pose proof (parseInt_nonneg _ _ E Ez). lia.
Qed.

(** A cell that is absent, empty, or whose text [parseInt] rejects gives 0. *)
Lemma intOf_default c :
  c = None \/ (exists s, c = Some s /\ Js.parseInt s = None) -> intOf c = 0.
Proof.
  intros [->|(s & -> & Hs)]; [reflexivity|]. unfold intOf.
  destruct s as [|a s]; [reflexivity|]. simpl orElse. by rewrite Hs.
Qed.

Lemma mathInt_app_nonneg a b :
  Forall (fun d => 0 <= d) a -> Forall (fun d => 0 <= d) b -> 0 <= Js.mathInt 10 (a ++ b).
Proof.
  intros Ha Hb. apply digitFold_nonneg; [lia | lia |]. by apply Forall_app.
Qed.

Lemma decimalLiteral_nonneg u m e : Js.decimalLiteral u = Some (m, e) -> 0 <= m.
Proof.
  unfold Js.decimalLiteral.
  set (ip := Js.takeDigits 10 u). set (r1 := Js.dropDigits 10 u).
  assert (Forall (fun d => 0 <= d) ip) as Hip by apply takeDigits_nonneg.
  destruct (match r1 with
            | String "." r => (Js.takeDigits 10 r, Js.dropDigits 10 r)
            | _ => ([], r1)
            end) as [fp r2] eqn:E.
  assert (Forall (fun d => 0 <= d) fp) as Hfp.
  { destruct r1 as [|c r]; [injection E as <- _; constructor|].
    destruct c as [[] [] [] [] [] [] [] []]; injection E as <- _;
      first [constructor | apply takeDigits_nonneg]. }
  pose proof (mathInt_app_nonneg ip fp Hip Hfp) as Hm.
  destruct (ip ++ fp)%list; [done|].
  destruct (Js.exponentPart r2); [|done]. intros [= <- _]. exact Hm.
Qed.

Lemma ofDecimal_nonneg m e : 0 <= m -> Js.nonNegative (Js.ofDecimal false m e).
Proof.
  intros Hm. unfold Js.ofDecimal. destruct (0 <=? e) eqn:E; simpl.
  - apply Z.leb_le in E. apply Z.mul_nonneg_nonneg; [done|]. by apply Z.pow_nonneg.
  - destruct (_ =? 0); simpl; [|done]. apply Z.div_pos; [done|]. apply Z.pow_pos_nonneg; lia.
Qed.

(** [Number] gives a negative number only for a text that starts with a
    minus sign. *)
Lemma Number_nonneg s x :
  leadingMinus s = false -> Js.Number s = Some x -> Js.nonNegative x.
Proof.
  intros Hs. unfold Js.Number.
  destruct (Js.nonEmpty (Js.trim s)); cbn [negb]; [|intros [= <-]; simpl; lia].
  destruct (Js.radixLiteral (Js.trim s)) as [[radix body]|] eqn:El.
  - assert (0 <= radix) as Hr.
    { unfold Js.radixLiteral in El.
      repeat match type of El with
             | match ?x with _ => _ end = _ => destruct x; try discriminate El
             end; injection El as <- _; lia. }
    destruct (_ && _); intros [= <-]. simpl. by apply mathInt_takeDigits_nonneg.
  - destruct (stripSign_trim_plain _ Hs) as [u ->].
    destruct (String.eqb u "Infinity"); [by intros [= <-]|].
    destruct (Js.decimalLiteral u) as [[m e]|] eqn:Ed; intros [= <-].
    apply ofDecimal_nonneg. by eapply decimalLiteral_nonneg.
Qed.

Lemma component_readFrom parts i :
  (forall p y, parts !! i = Some p -> Js.Number p = Some y -> Full.component parts i = y)
  /\ (parts !! i = None \/ (exists p, parts !! i = Some p /\ Js.Number p = None)
      -> Full.component parts i = Js.Whole 0)
  /\ (Js.nonNegative (Full.component parts i)
      \/ exists p, parts !! i = Some p /\ leadingMinus p = true).
Proof.
  unfold Full.component.
  destruct (parts !! i) as [p|]; [|split; [done|split; [done|left; simpl; lia]]].
  split; [|split].
  - intros p' y [= <-] ->. done.
  - intros [H|(p' & [= <-] & ->)]; done.
  - destruct (leadingMinus p) eqn:E; [right; by exists p|left].
    destruct (Js.Number p) as [x|] eqn:En; [by eapply Number_nonneg | simpl; lia].
Qed.

(** ** The two normalizers *)

Lemma component_integral parts i :
  component parts i
  = match Full.component parts i with Js.Whole z => Ret z | _ => Beyond end.
Proof.
  unfold component, Full.component. destruct (parts !! i) as [p|]; [|done].
  by destruct (Js.Number p) as [[]|].
Qed.

(** The normalizer in whole numbers is the normalizer on all numbers where
    that gives whole numbers for the total flight time. *)
Lemma normalize_integral row index :
  normalize row index = integral (Full.normalize row index).
Proof.
  unfold normalize, Full.normalize, integral. cbn [FlightRecord.totalFlightHours
    FlightRecord.totalFlightMinutes].
  destruct (Js.includes ":" _); [|done].
  unfold parseTimeString, Full.parseTimeString.
  destruct (negb _); [done|]. rewrite !component_integral. cbn [fst snd].
  destruct (Full.component _ 0); [|done..].
  by destruct (Full.component _ 1).
Qed.

Lemma normalizeFrom_integral data : forall index,
  normalizeFrom index data = traverse integral (Full.normalizeFrom index data).
Proof.
  induction data as [|row data IH]; intros index; [done|].
  cbn [normalizeFrom Full.normalizeFrom]. by rewrite normalize_integral, IH.
Qed.

Lemma Full_normalizeFrom_lookup data : forall index i,
  Full.normalizeFrom index data !! i
  = (fun row => Full.normalize row (index + i)) <$> data !! i.
Proof.
  induction data as [|row data IH]; intros index i; [done|].
  destruct i as [|i]; cbn [Full.normalizeFrom].
  - by rewrite Nat.add_0_r.
  - simpl. rewrite IH. by rewrite Nat.add_succ_r.
Qed.

Lemma normalize_inv row index r :
  normalize row index = Ret r ->
  exists total,
    (if Js.includes ":" (orElse (prop row "Total F\H") "")
     then parseTimeString (orElse (prop row "Total F\H") "")
     else Ret (intOf (prop row "TOTAL HRS"), 0)) = Ret total
    /\ FlightRecord.totalFlightHours r = total.1
    /\ FlightRecord.totalFlightMinutes r = total.2
    /\ parsedFields r = map (fun key => (key, intOf (prop row key))) parsedKeys
    /\ FlightRecord.ser r = orElse (prop row "Ser") (Js.toString (Z.of_nat index + 1))
    /\ FlightRecord.date r = orElse (prop row "Date") "".
Proof.
  unfold normalize.
  destruct (if Js.includes ":" _ then _ else _) as [total| |]; simpl; try done.
  intros [= <-]. exists total. done.
Qed.

(** ** The upload handler *)

Lemma traverse_total {A B} (f : A -> outcome B) (g : A -> B) l :
  (forall a, In a l -> f a = Ret (g a)) -> traverse f l = Ret (map g l).
Proof.
  induction l as [|a l IH]; intros H; [done|]. cbn [traverse map].
  rewrite (H a) by (by left). rewrite IH by (intros; apply H; by right). done.
Qed.

Lemma traverse_processRow headers rows :
  traverse (processRow headers) rows = Ret (map (pipelineResult headers) rows).
Proof. apply traverse_total. intros row _. apply processRow_pipeline. Qed.

Lemma hasHeader_In headers name :
  hasHeader headers name = true <-> In (Some name) headers.
Proof.
  unfold hasHeader. rewrite existsb_exists. split.
  - intros ([s|] & Hin & Hs); [|done]. apply String.eqb_eq in Hs. by subst.
  - intros Hin. exists (Some name). by rewrite String.eqb_refl.
Qed.

Lemma required_missing headers name :
  In name requiredHeaders -> ~ In (Some name) headers ->
  forallb (hasHeader headers) requiredHeaders = false.
Proof.
  intros Hreq Hmiss. apply not_true_is_false. intros Hall.
  rewrite forallb_forall in Hall. by apply Hmiss, hasHeader_In, Hall.
Qed.

Lemma required_present headers :
  (forall name, In name requiredHeaders -> In (Some name) headers) ->
  forallb (hasHeader headers) requiredHeaders = true.
Proof. intros H. apply forallb_forall. intros name Hn. by apply hasHeader_In, H. Qed.

Lemma omap_all_None {A} (l : list (option A)) :
  (forall o, In o l -> o = None) -> omap id l = [].
Proof.
  induction l as [|o l IH]; intros H; [done|].
  rewrite (H o) by (by left). simpl. apply IH. intros; apply H; by right.
Qed.

Section UploadFacts.

Variable Date_parse : string -> option Z.

Lemma processUpload_missing headers rows name :
  In name requiredHeaders -> ~ In (Some name) headers ->
  processUpload Date_parse (Sheet (headers :: rows)) = Throw missingHeaders.
Proof.
  intros Hreq Hmiss. unfold processUpload.
  by rewrite (required_missing headers name).
Qed.

Lemma processUpload_empty headers rows :
  (forall name, In name requiredHeaders -> In (Some name) headers) ->
  (forall row, In row rows -> processRow headers row = Ret None) ->
  processUpload Date_parse (Sheet (headers :: rows)) = Throw noValidData.
Proof.
  intros Hreq Hrows. unfold processUpload. rewrite required_present by done.
  cbn [negb]. rewrite traverse_processRow. simpl.
  rewrite omap_all_None; [done|].
  intros o (row & <- & Hrow)%in_map_iff. specialize (Hrows row Hrow).
  rewrite processRow_pipeline in Hrows. by injection Hrows.
Qed.

Lemma processUpload_not_Beyond file : processUpload Date_parse file <> Beyond.
Proof.
  destruct file as [e|[|headers rows]]; [done..|]. unfold processUpload.
  destruct (negb _); [done|]. rewrite traverse_processRow. simpl.
  destruct (_ =? _)%nat; [done|].
  pose proof (calculateStats_not_Beyond Date_parse
                (omap id (map (pipelineResult headers) rows))).
  destruct (calculateStats _ _); done.
Qed.

End UploadFacts.

(** * Properties stated by the specification *)

(** ** Normalizer *)

Lemma orElse_nonEmpty c d : Js.nonEmpty d = true -> Js.nonEmpty (orElse c d) = true.
Proof. by destruct c as [[|a s]|]. Qed.

(** At the level of [processFlightData] the default serial is the position
    of the row in the array it is given. *)
Example processFlightData_positions :
  exists r1 r2,
    processFlightData [ {[ "Date" := Some "2024-01-01" ]}; {[ "Date" := Some "2024-01-02" ]} ]
    = Ret [r1; r2]
    /\ FlightRecord.ser r1 = "1" /\ FlightRecord.ser r2 = "2".
Proof. do 2 eexists. split; [vm_compute; reflexivity|]. split; reflexivity. Qed.

(** C3: for uploaded rows the record made from the n-th data row with an
    empty or absent serial cell should carry the text of n.  The upload
    handler hands each row to [processFlightData] as an array of its own, so
    the position is always 0 and the default serial is "1" for every row:
    here for the second row of a sheet. *)
Theorem upload_serial_default_is_one :
  (forall headers rows,
     traverse (processRow headers) rows = Ret (map (pipelineResult headers) rows)
     /\ forall row, FlightRecord.ser (pipelineRecord headers row)
                    = orElse (prop (recordOf headers row) "Ser") "1")
  /\ exists r1 r2,
       traverse (processRow sampleHeaders) [rowColonForm; rowPlainHours]
       = Ret [Some r1; Some r2]
       /\ prop (recordOf sampleHeaders rowPlainHours) "Ser" = Some ""
       /\ FlightRecord.ser r2 = "1"
       /\ FlightRecord.ser r2 <> Js.toString 2.
Proof.
  split.
  - intros headers rows. split; [apply traverse_processRow | done].
  - do 2 eexists. split; [vm_compute; reflexivity|].
    split; [vm_compute; reflexivity|]. split; [reflexivity|]. vm_compute. discriminate.
Qed.

(** C10: the normalizer builds one record for every row, whatever the
    cells hold, and its serial is never empty: it is the serial cell when
    that holds text, else the printed position.  So the filter drops a
    record exactly when its date is empty. *)
Theorem serial_never_empty data index :
  let rs := Full.normalizeFrom index data in
  length rs = length data
  /\ (forall i row, data !! i = Some row ->
        exists r, rs !! i = Some r
          /\ FlightRecord.ser r
             = orElse (prop row "Ser") (Js.toString (Z.of_nat (index + i) + 1)))
  /\ Forall (fun r => FlightRecord.ser r <> "") rs
  /\ (forall r, In r rs -> valid r = false <-> FlightRecord.date r = "")
  /\ List.filter valid rs
     = List.filter (fun r => Js.nonEmpty (FlightRecord.date r)) rs.
Proof.
  intros rs.
  assert (forall r, In r rs -> Js.nonEmpty (FlightRecord.ser r) = true) as Hser.
  { intros r (i & Hi)%list_elem_of_In%list_elem_of_lookup_1.
    subst rs. rewrite Full_normalizeFrom_lookup in Hi.
    destruct (data !! i) as [row|]; [|done]. injection Hi as <-.
    apply orElse_nonEmpty, toString_nonEmpty. }
  split; [|split; [|split; [|split]]].
  - subst rs. clear Hser. revert index.
    induction data as [|row data IH]; intros index; [done|].
    cbn [Full.normalizeFrom length]. by rewrite IH.
  - intros i row Hrow. subst rs. rewrite Full_normalizeFrom_lookup, Hrow.
    eexists. split; reflexivity.
  - apply List.Forall_forall. intros r Hr Hempty. specialize (Hser r Hr).
    by rewrite Hempty in Hser.
  - intros r Hr. unfold valid. rewrite (Hser r Hr). simpl. apply nonEmpty_false.
  - apply List.filter_ext_in. intros r Hr. unfold valid. by rewrite (Hser r Hr).
Qed.

(** Rows whose total flight time is no number, a number with a dot and
    nothing behind it, and a fraction: each gets a record and a serial. *)
Lemma serial_never_empty_witness :
  let data : list (gmap string cell) :=
    [ {[ "Date" := Some "2024-01-10"; "Total F\H" := Some "5-:2" ]};
      {[ "Ser" := Some "A7"; "Total F\H" := Some "12.:30" ]};
      {[ "Ser" := Some ""; "Date" := Some "2024-01-12"; "Total F\H" := Some "1.5:30" ]} ] in
  map FlightRecord.ser (Full.normalizeFrom 0 data) = ["1"; "A7"; "3"]
  /\ Forall (fun r => FlightRecord.ser r <> "") (Full.normalizeFrom 0 data)
  /\ map FlightRecord.ser (Full.processFlightData data) = ["1"; "3"]
  /\ List.filter valid (Full.normalizeFrom 0 data)
     = List.filter (fun r => Js.nonEmpty (FlightRecord.date r)) (Full.normalizeFrom 0 data).
Proof.
  intros data. pose proof (serial_never_empty data 0) as (_ & _ & Hne & _ & Hfilter).
  split; [vm_compute; reflexivity|]. split; [exact Hne|].
  split; [vm_compute; reflexivity | exact Hfilter].
Defined.

(** In the upload handler a row is dropped exactly when its date cell is
    empty or absent. *)
Lemma processRow_drops_iff_no_date headers row :
  processRow headers row = Ret None
  <-> orElse (prop (recordOf headers row) "Date") "" = "".
Proof.
  rewrite processRow_pipeline. unfold pipelineResult, valid.
  assert (Js.nonEmpty (FlightRecord.ser (pipelineRecord headers row)) = true) as ->
    by (by apply orElse_nonEmpty).
  cbn [andb FlightRecord.date pipelineRecord].
  destruct (orElse _ "") eqn:E; simpl; split; done.
Qed.

(** The normalizer itself follows the dual-source rule on a row keyed by
    the literal header texts. *)
Example normalize_dual_source :
  exists r1 r2,
    processFlightData
      [ {[ "Date" := Some "2024-01-01"; "Total F\H" := Some "3:30"; "TOTAL HRS" := Some "10" ]};
        {[ "Date" := Some "2024-01-01"; "Total F\H" := Some ""; "TOTAL HRS" := Some "10" ]} ]
    = Ret [r1; r2]
    /\ FlightRecord.totalFlightHours r1 = 3 /\ FlightRecord.totalFlightMinutes r1 = 30
    /\ FlightRecord.totalFlightHours r2 = 10 /\ FlightRecord.totalFlightMinutes r2 = 0.
Proof. do 2 eexists. split; [vm_compute; reflexivity|]. repeat split. Qed.

(** Hours and minutes that are no numbers count as 0, a dot without digits
    behind it and an exponent are read, blanks around a number are dropped,
    and a fraction is kept as it is. *)
Example normalize_time_texts :
  map (fun text => (FlightRecord.totalFlightHours
                      (Full.normalize {[ "Total F\H" := Some text ]} 0),
                    FlightRecord.totalFlightMinutes
                      (Full.normalize {[ "Total F\H" := Some text ]} 0)))
      [ ".:1"; "1e3:5"; "12.:30"; "5-:2"; " 3 : 05 "; "1.5:30"; "-2:Infinity" ]
  = [ (Js.Whole 0, Js.Whole 1); (Js.Whole 1000, Js.Whole 5); (Js.Whole 12, Js.Whole 30);
      (Js.Whole 0, Js.Whole 2); (Js.Whole 3, Js.Whole 5);
      (Js.Decimal 15 (-1), Js.Whole 30); (Js.Whole (-2), Js.Infinite false) ].
Proof. vm_compute. reflexivity. Qed.

(** C2: through the whole upload path a row with Total F\H = "3:30" and
    TOTAL HRS = "10" should give 3 hours 30 minutes, and one with an empty
    Total F\H should give 10 hours.  The handler stores every cell under its
    header without backslashes and blanks ("TotalFH", "TOTALHRS") while the
    normalizer looks up "Total F\H" and "TOTAL HRS", so both lookups miss
    and every uploaded row gets 0 hours and 0 minutes. *)
Theorem upload_loses_total_flight_time :
  (forall headers row,
     processRow headers row = Ret (pipelineResult headers row)
     /\ FlightRecord.totalFlightHours (pipelineRecord headers row) = 0
     /\ FlightRecord.totalFlightMinutes (pipelineRecord headers row) = 0)
  /\ exists r1 r2,
       processRow sampleHeaders rowColonForm = Ret (Some r1)
       /\ processRow sampleHeaders rowPlainHours = Ret (Some r2)
       /\ FlightRecord.totalFlightHours r1 = 0 /\ FlightRecord.totalFlightMinutes r1 = 0
       /\ FlightRecord.totalFlightHours r2 = 0 /\ FlightRecord.totalFlightMinutes r2 = 0.
Proof.
  split.
  - intros headers row. split; [apply processRow_pipeline | done].
  - do 2 eexists. split; [vm_compute; reflexivity|].
    split; [vm_compute; reflexivity|]. repeat split.
Qed.

(** C4, as the specification puts it, fails: a cell "-5" under the header
    Cyc. is parsed to -5 and kept. *)
Lemma negative_cell_gives_negative_field :
  exists r,
    normalize (recordOf sampleHeaders rowNegativeCycles) 0 = Ret r
    /\ FlightRecord.cycles r = -5
    /\ ~ nonNegativeFields r.
Proof.
  eexists. split; [vm_compute; reflexivity|]. split; [reflexivity|].
  unfold nonNegativeFields, numericFields. intros H.
  apply List.Forall_forall with (x := -5) in H; [lia|]. simpl. tauto.
Qed.

(** C4, amended: for every row, each field read with [parseInt] is the
    parse of its cell, is 0 when the cell is absent or does not parse, and
    is negative only if the cell starts (after white space) with a minus
    sign.  Without a colon in the Total F\H cell the total flight time is
    the TOTAL HRS cell read the same way and 0 minutes; with one, hours and
    minutes are the numbers of the first two pieces of the cell, 0 for a
    piece that is missing or no number, and negative only if the piece
    starts with a minus sign. *)
Theorem numeric_fields_signs row index :
  let r := Full.normalize row index in
  parsedFields r = map (fun key => (key, intOf (prop row key))) parsedKeys
  /\ (forall key,
        prop row key = None \/ (exists s, prop row key = Some s /\ Js.parseInt s = None) ->
        intOf (prop row key) = 0)
  /\ (forall key,
        intOf (prop row key) < 0 ->
        exists s, prop row key = Some s /\ leadingMinus s = true)
  /\ (Js.includes ":" (totalTimeText row) = false ->
        FlightRecord.totalFlightHours r = Js.Whole (intOf (prop row "TOTAL HRS"))
        /\ FlightRecord.totalFlightMinutes r = Js.Whole 0)
  /\ (Js.includes ":" (totalTimeText row) = true ->
        readFrom (timePart row 0) (FlightRecord.totalFlightHours r)
        /\ readFrom (timePart row 1) (FlightRecord.totalFlightMinutes r)).
Proof.
  intros r. split; [done|]. split; [intros key; apply intOf_default|].
  split; [intros key; apply intOf_negative|].
  subst r. unfold Full.normalize, totalTimeText, timePart.
  cbn [FlightRecord.totalFlightHours FlightRecord.totalFlightMinutes].
  split; intros ->; [done|]. unfold Full.parseTimeString, totalTimeText.
  destruct (orElse (prop row "Total F\H") "") as [|a t] eqn:E.
  - cbn [Js.nonEmpty negb fst snd]. split.
    + split; [|split; [done | left; simpl; lia]].
      intros p y [= <-] [= <-]. done.
    + split; [|split; [done | left; simpl; lia]]. done.
  - cbn [Js.nonEmpty negb fst snd]. split; apply component_readFrom.
Qed.

Lemma numeric_fields_signs_witness :
  let row : gmap string cell :=
    {[ "Date" := Some "2024-01-10"; "Total F\H" := Some "1.5:-30"; "TOTAL HRS" := Some "10";
       "Cyc." := Some " -5"; "Total Cyc" := Some "7 landings"; "TOTAL MIN" := Some "abc" ]} in
  let r := Full.normalize row 0 in
  FlightRecord.totalFlightHours r = Js.Decimal 15 (-1)
  /\ FlightRecord.totalFlightMinutes r = Js.Whole (-30)
  /\ Js.nonNegative (FlightRecord.totalFlightHours r)
  /\ FlightRecord.cycles r = -5
  /\ FlightRecord.totalCycles r = 7
  /\ FlightRecord.totalMinutes r = 0
  /\ parsedFields r = map (fun key => (key, intOf (prop row key))) parsedKeys.
Proof.
  intros row r.
  pose proof (numeric_fields_signs row 0) as (Hparsed & _ & _ & _ & Hcolon).
  destruct (Hcolon eq_refl) as ((Hh & _ & Hsign) & _).
  split; [exact (Hh "1.5"%string (Js.Decimal 15 (-1)) eq_refl eq_refl)|].
  split; [reflexivity|].
  split; [destruct Hsign as [Hs|(p & [= <-] & Hp)]; [exact Hs | discriminate Hp]|].
  split; [reflexivity|]. split; [reflexivity|]. split; [reflexivity | exact Hparsed].
Defined.

(** ** Aggregator *)

(** The two tie-break runs of the specification. *)
Example mostFrequentRoute_tie_AB :
  mostFrequentRouteOf
    [ leg "A" "B" "2024-01-01"; leg "A" "B" "2024-01-02";
      leg "C" "D" "2024-01-03"; leg "C" "D" "2024-01-04" ] = "A-B".
Proof. reflexivity. Qed.

Example mostFrequentRoute_tie_CD :
  mostFrequentRouteOf
    [ leg "C" "D" "2024-01-01"; leg "C" "D" "2024-01-02";
      leg "A" "B" "2024-01-03"; leg "A" "B" "2024-01-04" ] = "C-D".
Proof. reflexivity. Qed.

(** C5: for a non-empty sequence of records the most frequent route is the
    key from-to of a record [r] such that no route has more records than
    the route of [r], and every record in front of [r] belongs to a route
    with strictly fewer records; so among the routes of highest count it is
    the one whose first record comes first.  The statistics returned carry
    that key, and they are returned whenever every date is usable. *)
Theorem mostFrequentRoute_first_maximum (Date_parse : string -> option Z) data :
  data <> [] ->
  exists pre r post,
    data = pre ++ r :: post
    /\ mostFrequentRouteOf data = (FlightRecord.from r ++ "-" ++ FlightRecord.to r)%string
    /\ (forall x, In x data -> countRoute (routeOf x) data <= countRoute (routeOf r) data)
    /\ (forall x, In x pre -> countRoute (routeOf x) data < countRoute (routeOf r) data)
    /\ (forall st, calculateStats Date_parse data = Ret st ->
                   FlightStats.mostFrequentRoute st = routeOf r)
    /\ (Forall (usableDate Date_parse) data ->
        exists st, calculateStats Date_parse data = Ret st
                   /\ FlightStats.mostFrequentRoute st = routeOf r).
Proof.
  intros Hne.
  destruct (mostFrequentRouteOf_first_max data Hne) as (pre & r & post & Hd & Hbest & Hmax & Hpre).
  exists pre, r, post. repeat split; try done.
  - intros st Hst. apply calculateStats_fields in Hst as (_ & -> & _). exact Hbest.
  - intros Hall. destruct (calculateStats_returns Date_parse data Hall) as (st & Hst & _ & Hr & _).
    exists st. split; [done|]. by rewrite Hr.
Qed.

Lemma mostFrequentRoute_first_maximum_witness :
  let data := [ leg "A" "B" "2024-01-01"; leg "A" "B" "2024-01-02";
                leg "C" "D" "2024-01-03"; leg "C" "D" "2024-01-04" ] in
  data <> []
  /\ mostFrequentRouteOf data = "A-B"
  /\ exists pre r post,
       data = pre ++ r :: post
       /\ mostFrequentRouteOf data = (FlightRecord.from r ++ "-" ++ FlightRecord.to r)%string
       /\ (forall x, In x data -> countRoute (routeOf x) data <= countRoute (routeOf r) data)
       /\ (forall x, In x pre -> countRoute (routeOf x) data < countRoute (routeOf r) data).
Proof.
  intros data. split; [discriminate|]. split; [reflexivity|].
  destruct (mostFrequentRoute_first_maximum isoDateOnly data ltac:(discriminate))
    as (pre & r & post & H1 & H2 & H3 & H4 & _).
  exists pre, r, post. auto.
Defined.

(** What [calculateStats] returns for the two day-span runs of the
    specification. *)
Example totalDays_single_day :
  exists st, calculateStats isoDateOnly [leg "A" "B" "2024-01-15"] = Ret st
             /\ FlightStats.totalDays st = 1.
Proof. eexists. split; [vm_compute; reflexivity | reflexivity]. Qed.

Example totalDays_ten_days :
  exists st,
    calculateStats isoDateOnly [leg "A" "B" "2024-01-01"; leg "A" "B" "2024-01-10"] = Ret st
    /\ FlightStats.totalDays st = 10.
Proof. eexists. split; [vm_compute; reflexivity | reflexivity]. Qed.

(** Where the statistics are returned, the day span is the one of the
    specification. *)
Lemma totalDays_of_returned_stats Date_parse data st :
  calculateStats Date_parse data = Ret st ->
  (datesOf Date_parse data = [] -> FlightStats.totalDays st = 0)
  /\ (datesOf Date_parse data <> [] ->
      exists lo hi,
        In lo (datesOf Date_parse data) /\ In hi (datesOf Date_parse data)
        /\ (forall t, In t (datesOf Date_parse data) -> lo <= t <= hi)
        /\ FlightStats.totalDays st = ceilDiv (hi - lo) msPerDay + 1).
Proof.
  intros (_ & _ & -> & _)%calculateStats_fields. split.
  - apply totalDaysOf_none.
  - apply totalDaysOf_span.
Qed.

(** C1: a record whose date does not parse should be left out of the
    monthly buckets and the aggregation should still return.  Line 138
    calls [toISOString] on the invalid date, so a single record with a
    non-empty unparseable date makes [calculateStats] throw a RangeError; the
    guard of line 137 covers the empty date only. *)
Theorem invalid_date_aborts_aggregation (Date_parse : string -> option Z) data r :
  In r data ->
  FlightRecord.date r <> "" ->
  Date_parse (FlightRecord.date r) = None ->
  calculateStats Date_parse data = Throw invalidTime.
Proof. apply calculateStats_throws. Qed.

Lemma invalid_date_aborts_aggregation_witness :
  let bad := leg "CAI" "JED" "unknown" in
  let data := [leg "CAI" "JED" "2024-01-15"; bad] in
  In bad data
  /\ FlightRecord.date bad <> ""
  /\ isoDateOnly (FlightRecord.date bad) = None
  /\ calculateStats isoDateOnly data = Throw invalidTime.
Proof.
  intros bad data.
  assert (In bad data) as Hin by (right; left; reflexivity).
  assert (FlightRecord.date bad <> "") as Hne by discriminate.
  assert (isoDateOnly (FlightRecord.date bad) = None) as Hp by reflexivity.
  split; [exact Hin|]. split; [exact Hne|]. split; [exact Hp|].
  exact (invalid_date_aborts_aggregation isoDateOnly data bad Hin Hne Hp).
Defined.

(** C6: with no parseable date the day span should be 0.  For a record
    whose date is not empty and does not parse no statistics come back at
    all: the monthly loop throws before line 148 is reached (the defect of
    C1). *)
Theorem unparseable_dates_abort_day_span :
  let data := [leg "CAI" "JED" "unknown"] in
  datesOf isoDateOnly data = []
  /\ totalDaysOf isoDateOnly data = 0
  /\ calculateStats isoDateOnly data = Throw invalidTime.
Proof. repeat split. Qed.

(** C9: the printed times of the specification, and the round trip: the
    text the aggregator prints for the total reads back as the sum of
    [minutesOf] over the records. *)
Theorem formatted_total_reads_back (Date_parse : string -> option Z) data :
  formatMinutesToTime 125 = "2:05"
  /\ formatMinutesToTime 0 = "0:00"
  /\ formatMinutesToTime 59 = "0:59"
  /\ (forall n, 0 <= n -> parseTimeBack (formatMinutesToTime n) = Ret n)
  /\ parseTimeBack (formatMinutesToTime (totalMinutesOf data)) = Ret (sumOver minutesOf data)
  /\ (forall st, calculateStats Date_parse data = Ret st ->
        parseTimeBack (FlightStats.totalFlightTime st) = Ret (sumOver minutesOf data))
  /\ (Forall (usableDate Date_parse) data ->
      exists st, calculateStats Date_parse data = Ret st
        /\ parseTimeBack (FlightStats.totalFlightTime st) = Ret (sumOver minutesOf data)).
Proof.
  assert (parseTimeBack (formatMinutesToTime (totalMinutesOf data))
          = Ret (sumOver minutesOf data)) as Hback.
  { rewrite totalMinutesOf_sum. apply parseTimeBack_format, sumOver_minutes_nonneg. }
  repeat split; try done.
  - apply parseTimeBack_format.
  - intros st (-> & _)%calculateStats_fields. exact Hback.
  - intros Hall. destruct (calculateStats_returns Date_parse data Hall) as (st & Hst & Ht & _).
    exists st. split; [done|]. by rewrite Ht.
Qed.

Lemma formatted_total_reads_back_witness :
  let data := [ pipelineRecord sampleHeaders rowColonForm;
                pipelineRecord sampleHeaders rowPlainHours ] in
  Forall (usableDate isoDateOnly) data
  /\ exists st, calculateStats isoDateOnly data = Ret st
       /\ parseTimeBack (FlightStats.totalFlightTime st) = Ret (sumOver minutesOf data).
Proof.
  intros data.
  assert (Forall (usableDate isoDateOnly) data) as Hall.
  { constructor; [right; vm_compute; eauto|].
    constructor; [right; vm_compute; eauto|]. constructor. }
  split; [exact Hall|].
  exact (proj2 (proj2 (proj2 (proj2 (proj2 (proj2
           (formatted_total_reads_back isoDateOnly data)))))) Hall).
Defined.

(** ** Upload handler *)

(** C7, as the specification puts it, fails: the message does not name
    the headers that are missing.  A head row that lacks only Date and one
    that lacks only Total Cyc are turned down with the same message, which
    lists headers the head row has. *)
Lemma missing_header_not_named :
  let headers1 := [Some "From"; Some "To"; Some "Total F\H"; Some "Total Cyc"] in
  let headers2 := [Some "Date"; Some "From"; Some "To"; Some "Total F\H"] in
  lacking headers1 = ["Date"] /\ lacking headers2 = ["Total Cyc"]
  /\ exists e,
       processUpload isoDateOnly (Sheet [headers1; rowColonForm]) = Throw e
       /\ processUpload isoDateOnly (Sheet [headers2; rowColonForm]) = Throw e
       /\ hasHeader headers2 "Date" = true
       /\ mentions "Date" (exn_message e)
       /\ ~ (forall name, mentions name (exn_message e) <-> In name (lacking headers2)).
Proof.
  intros headers1 headers2. split; [reflexivity|]. split; [reflexivity|].
  exists missingHeaders. split; [reflexivity|]. split; [reflexivity|].
  split; [reflexivity|].
  assert (mentions "Date" (exn_message missingHeaders)) as Hdate.
  { by exists "Missing required headers (e.g., "%string,
              ", From, To, Total F\H, Total Cyc)"%string. }
  split; [exact Hdate|]. intros H. apply H in Hdate.
  simpl in Hdate. destruct Hdate as [Hd|[]]. discriminate Hd.
Qed.

(** C7, amended: when the head row lacks one of the five required header
    texts the upload fails whatever the data rows are, always with the same
    error, whose message lists all five headers as an example whichever of
    them is missing; no statistics are produced and the ones held before
    stay. *)
Theorem missing_header_fixed_message (Date_parse : string -> option Z) st headers rows name :
  In name requiredHeaders ->
  ~ In (Some name) headers ->
  processUpload Date_parse (Sheet (headers :: rows))
  = Throw (Exn "Error"
             "Missing required headers (e.g., Date, From, To, Total F\H, Total Cyc)")
  /\ handleFileUpload Date_parse st (Sheet (headers :: rows))
     = Ret ({| flightData := flightData st; stats := stats st; isLoading := false |},
            Some "Error processing file: Missing required headers (e.g., Date, From, To, Total F\H, Total Cyc). Please ensure the file is a valid Excel file, headers match (e.g., Date, From, To, Total F\H, Total Cyc), and time values are valid (e.g., HH:MM or numeric).").
Proof.
  intros Hreq Hmiss.
  pose proof (processUpload_missing Date_parse headers rows name Hreq Hmiss) as Hup.
  split; [exact Hup|]. unfold handleFileUpload. by rewrite Hup.
Qed.

Lemma missing_header_fixed_message_witness :
  let headers := [Some "Ser"; Some "Date"; Some "From"; Some "To"; Some "Total F\H"] in
  In "Total Cyc"%string requiredHeaders
  /\ ~ In (Some "Total Cyc"%string) headers
  /\ handleFileUpload isoDateOnly loadedState (Sheet [headers; rowColonForm])
     = Ret ({| flightData := flightData loadedState; stats := stats loadedState;
               isLoading := false |},
            Some (alertText missingHeaders)).
Proof.
  intros headers.
  assert (In "Total Cyc"%string requiredHeaders) as Hreq by (simpl; tauto).
  assert (~ In (Some "Total Cyc"%string) headers) as Hmiss.
  { simpl. intros [H|[H|[H|[H|[H|[]]]]]]; discriminate H. }
  split; [exact Hreq|]. split; [exact Hmiss|].
  exact (proj2
    (missing_header_fixed_message isoDateOnly loadedState headers [rowColonForm]
       "Total Cyc" Hreq Hmiss)).
Defined.

(** C8: an upload that throws anywhere in the [try] block (unreadable
    bytes, a missing required header, no valid row, which has the message
    "No valid flight data found in the file" of its own) leaves the records
    and the statistics as they were; an upload that succeeds replaces both
    at once by the new records and their statistics.  Nothing else happens:
    the handler never leaves integer arithmetic. *)
Theorem failed_upload_keeps_state (Date_parse : string -> option Z) st file :
  (forall e, processUpload Date_parse file = Throw e ->
     handleFileUpload Date_parse st file
     = Ret ({| flightData := flightData st; stats := stats st; isLoading := false |},
            Some (alertText e)))
  /\ (forall data stat, processUpload Date_parse file = Ret (data, stat) ->
        handleFileUpload Date_parse st file
        = Ret ({| flightData := data; stats := Some stat; isLoading := false |}, None))
  /\ processUpload Date_parse file <> Beyond
  /\ (forall e, file = Unreadable e -> processUpload Date_parse file = Throw e)
  /\ (forall headers rows name,
        file = Sheet (headers :: rows) -> In name requiredHeaders ->
        ~ In (Some name) headers ->
        processUpload Date_parse file = Throw missingHeaders)
  /\ (forall headers rows,
        file = Sheet (headers :: rows) ->
        (forall name, In name requiredHeaders -> In (Some name) headers) ->
        (forall row, In row rows -> processRow headers row = Ret None) ->
        processUpload Date_parse file = Throw noValidData)
  /\ exn_message noValidData = "No valid flight data found in the file"%string
  /\ exn_message noValidData <> exn_message missingHeaders.
Proof.
  split; [|split; [|split; [|split; [|split; [|split; [|split]]]]]].
  - intros e He. unfold handleFileUpload. by rewrite He.
  - intros data stat Hs. unfold handleFileUpload. by rewrite Hs.
  - apply processUpload_not_Beyond.
  - by intros e ->.
  - intros headers rows name -> Hreq Hmiss. by eapply processUpload_missing.
  - intros headers rows -> Hreq Hrows. by apply processUpload_empty.
  - reflexivity.
  - discriminate.
Qed.

Lemma failed_upload_keeps_state_witness :
  let file := Sheet [sampleHeaders; rowNoDate] in
  processUpload isoDateOnly file = Throw noValidData
  /\ handleFileUpload isoDateOnly loadedState file
     = Ret ({| flightData := flightData loadedState; stats := stats loadedState;
               isLoading := false |},
            Some (alertText noValidData)).
Proof.
  intros file.
  assert (processUpload isoDateOnly file = Throw noValidData) as Hup
    by (vm_compute; reflexivity).
  split; [exact Hup|].
  exact (proj1 (failed_upload_keeps_state isoDateOnly loadedState file) noValidData Hup).
Defined.

(** A sheet whose rows are sound replaces records and statistics together,
    and one bad date in a later upload leaves them in place. *)
Example upload_then_bad_upload :
  exists st1,
    handleFileUpload isoDateOnly idleState (Sheet [sampleHeaders; rowColonForm; rowPlainHours])
    = Ret (st1, None)
    /\ length (flightData st1) = 2%nat
    /\ (FlightStats.totalDays <$> stats st1) = Some 10
    /\ handleFileUpload isoDateOnly st1 (Sheet [sampleHeaders; rowColonForm; rowBadDate])
       = Ret (st1, Some (alertText invalidTime)).
Proof.
  eexists. split; [vm_compute; reflexivity|]. split; [reflexivity|].
  split; [reflexivity|]. vm_compute. reflexivity.
Qed.

(** * Further properties of the code *)

(** ** Route and month tables *)

Lemma total_app {A} (f : A -> Z) l1 l2 : total f (l1 ++ l2) = total f l1 + total f l2.
Proof. induction l1 as [|x l1 IH]; simpl; [done|]. rewrite IH. lia. Qed.

Lemma countRoute_present data r : In r data -> 1 <= countRoute (routeOf r) data.
Proof.
  intros Hin. unfold countRoute.
  assert (In r (List.filter (onRoute (routeOf r)) data)) as H.
  { apply List.filter_In. split; [done|]. unfold onRoute. apply String.eqb_refl. }
  destruct (List.filter _ data); [destruct H | simpl; lia].
Qed.

(** X1: the route table has one entry per route that occurs in the data,
    no key twice, and each entry holds the number of records of its route
    (at least one) and the sum of their minutes. *)
Theorem routeStats_accounting data :
  List.NoDup (map fst (routeStatsOf data))
  /\ (forall key, In key (map fst (routeStatsOf data))
                  <-> exists r, In r data /\ routeOf r = key)
  /\ (forall key v, In (key, v) (routeStatsOf data) ->
        count v = countRoute key data
        /\ totalTime v = timeRoute key data
        /\ 1 <= count v).
Proof.
  rewrite routeStatsOf_spec.
  assert (map fst (map (statOf data) (firsts (map routeOf data)))
          = firsts (map routeOf data)) as Hkeys.
  { rewrite List.map_map. simpl. apply List.map_id. }
  rewrite Hkeys. split; [apply firsts_NoDup|]. split.
  - intros key. rewrite firsts_In, in_map_iff.
    split; intros (r & H1 & H2); exists r; auto.
  - intros key v (k & [= <- <-] & Hk)%in_map_iff. split; [done|]. split; [done|].
    apply firsts_In, in_map_iff in Hk as (r & <- & Hr). by apply countRoute_present.
Qed.

Lemma addRoute_totals route time entries :
  total (fun e => count e.2) (addRoute route time entries)
  = total (fun e => count e.2) entries + 1
  /\ total (fun e => totalTime e.2) (addRoute route time entries)
     = total (fun e => totalTime e.2) entries + time.
Proof.
  induction entries as [|[k v] entries [IH1 IH2]]; simpl; [lia|].
  destruct (String.eqb k route); simpl; lia.
Qed.

(** X2: the counts of the route table add up to the number of records and
    its times to the total minutes: every record is counted under exactly
    one route. *)
Theorem routeStats_totals data :
  total (fun e => count e.2) (routeStatsOf data) = Z.of_nat (length data)
  /\ total (fun e => totalTime e.2) (routeStatsOf data) = totalMinutesOf data.
Proof.
  induction data as [|r data [IH1 IH2]] using rev_ind; [done|].
  rewrite routeStatsOf_snoc.
  destruct (addRoute_totals (routeOf r) (minutesOf r) (routeStatsOf data)) as [-> ->].
  rewrite IH1, IH2, length_app, !totalMinutesOf_sum, sumOver_app. simpl. lia.
Qed.

Lemma addMonth_totals month time cyc entries :
  total (fun e => flights e.2) (addMonth month time cyc entries)
  = total (fun e => flights e.2) entries + 1
  /\ total (fun e => hours e.2) (addMonth month time cyc entries)
     = total (fun e => hours e.2) entries + time
  /\ total (fun e => month_cycles e.2) (addMonth month time cyc entries)
     = total (fun e => month_cycles e.2) entries + cyc.
Proof.
  induction entries as [|[k v] entries (IH1 & IH2 & IH3)]; simpl; [lia|].
  destruct (String.eqb k month); simpl; lia.
Qed.

Lemma addMonth_keys month time cyc entries :
  map fst (addMonth month time cyc entries)
  = if existsb (String.eqb month) (map fst entries)
    then map fst entries else map fst entries ++ [month].
Proof.
  induction entries as [|[k v] entries IH]; simpl; [done|].
  rewrite (String.eqb_sym month k).
  destruct (String.eqb k month); simpl; [done|]. rewrite IH.
  by destruct (existsb _ _).
Qed.

Lemma addMonth_NoDup month time cyc entries :
  List.NoDup (map fst entries) -> List.NoDup (map fst (addMonth month time cyc entries)).
Proof.
  intros Hnd. rewrite addMonth_keys. destruct (existsb _ _) eqn:E; [done|].
  apply List.NoDup_app; [done | repeat constructor; simpl; tauto |].
  intros x Hx [<-|[]]. apply existsb_eqb_In in Hx. congruence.
Qed.

Section MonthTable.

Variable Date_parse : string -> option Z.

Lemma monthlyFrom_totals data : forall entries months,
  monthlyFrom Date_parse entries data = Ret months ->
  (List.NoDup (map fst entries) -> List.NoDup (map fst months))
  /\ total (fun e => flights e.2) months
     = total (fun e => flights e.2) entries + Z.of_nat (length (dated data))
  /\ total (fun e => hours e.2) months
     = total (fun e => hours e.2) entries + sumOver minutesOf (dated data)
  /\ total (fun e => month_cycles e.2) months
     = total (fun e => month_cycles e.2) entries
       + sumOver FlightRecord.totalCycles (dated data).
Proof.
  induction data as [|x data IH]; intros entries months H; cbn [monthlyFrom] in H.
  - injection H as <-. unfold dated. simpl. repeat split; [done | lia..].
  - unfold dated in *. cbn [List.filter].
    destruct (Js.nonEmpty (FlightRecord.date x)) eqn:E.
    + destruct (isoOf Date_parse (FlightRecord.date x)) as [iso| |]; simpl in H; try done.
      destruct (IH _ _ H) as (Hnd & Hf & Hh & Hc).
      destruct (addMonth_totals (substring 0 7 iso) (minutesOf x)
                  (FlightRecord.totalCycles x) entries) as (Ef & Eh & Ec).
      rewrite Ef in Hf. rewrite Eh in Hh. rewrite Ec in Hc.
      split; [intros; by apply Hnd, addMonth_NoDup|].
      unfold sumOver in *. cbn [length foldr]. repeat split; lia.
    + by apply IH.
Qed.

(** X3: when the statistics are returned, no month occurs twice in the
    month table and its flights, minutes and cycles add up to those of the
    records with a non-empty date: every such record is booked in exactly
    one month. *)
Theorem monthlyStats_totals data st :
  calculateStats Date_parse data = Ret st ->
  List.NoDup (map fst (FlightStats.monthlyStats st))
  /\ total (fun e => flights e.2) (FlightStats.monthlyStats st)
     = Z.of_nat (length (dated data))
  /\ total (fun e => hours e.2) (FlightStats.monthlyStats st)
     = sumOver minutesOf (dated data)
  /\ total (fun e => month_cycles e.2) (FlightStats.monthlyStats st)
     = sumOver FlightRecord.totalCycles (dated data).
Proof.
  destruct data as [|x data].
  - intros [= <-]. simpl. repeat split; constructor.
  - unfold calculateStats.
    destruct (monthlyFrom Date_parse [] (x :: data)) as [months| |] eqn:E; simpl; try done.
    intros [= <-]. cbn [FlightStats.monthlyStats].
    destruct (monthlyFrom_totals _ _ _ E) as (Hnd & Hf & Hh & Hc).
    split; [apply Hnd; constructor|]. simpl in Hf, Hh, Hc. repeat split; lia.
Qed.

End MonthTable.

Lemma monthlyStats_totals_witness :
  let data := [leg "CAI" "JED" "2024-01-31"; leg "JED" "CAI" "2024-02-01"; leg "CAI" "JED" ""] in
  exists st,
    calculateStats isoDateOnly data = Ret st
    /\ map fst (FlightStats.monthlyStats st) = ["2024-01"; "2024-02"]%string
    /\ total (fun e => flights e.2) (FlightStats.monthlyStats st)
       = Z.of_nat (length (dated data)).
Proof.
  intros data. eexists. split; [vm_compute; reflexivity|]. split; [reflexivity|].
  refine (proj1 (proj2 (monthlyStats_totals isoDateOnly data _ _))).
  vm_compute; reflexivity.
Defined.

(** ** The sort by count *)

Lemma insertByCount_perm e l : Permutation (e :: l) (insertByCount e l).
Proof.
  induction l as [|e' l IH]; simpl; [done|].
  destruct (count e.2 <? count e'.2); [|done].
  rewrite perm_swap. by constructor.
Qed.

Lemma sortByCountDesc_perm entries : Permutation entries (sortByCountDesc entries).
Proof.
  induction entries as [|e entries IH]; [done|].
  change (sortByCountDesc (e :: entries)) with (insertByCount e (sortByCountDesc entries)).
  rewrite <- insertByCount_perm. by constructor.
Qed.

Lemma insertByCount_sorted e l :
  StronglySorted countDescending l -> StronglySorted countDescending (insertByCount e l).
Proof.
  induction 1 as [|e' l Hs IH Hall]; simpl; [repeat constructor|].
  destruct (count e.2 <? count e'.2) eqn:E.
  - apply Z.ltb_lt in E. constructor; [done|].
    apply (Permutation_Forall (insertByCount_perm e l)).
    constructor; [unfold countDescending; lia | done].
  - apply Z.ltb_ge in E. constructor; [by constructor|].
    constructor; [done|]. eapply List.Forall_impl; [|exact Hall].
    unfold countDescending. intros; lia.
Qed.

Lemma sortByCountDesc_sorted entries :
  StronglySorted countDescending (sortByCountDesc entries).
Proof.
  induction entries as [|e entries IH]; [constructor|].
  by apply insertByCount_sorted.
Qed.

Lemma insertByCount_filter c e l :
  List.filter (fun x => count x.2 =? c) (insertByCount e l)
  = List.filter (fun x => count x.2 =? c) (e :: l).
Proof.
  induction l as [|e' l IH]; [done|]. cbn [insertByCount].
  destruct (count e.2 <? count e'.2) eqn:E; [|done].
  apply Z.ltb_lt in E. cbn [List.filter] in *. rewrite IH.
  destruct (count e.2 =? c) eqn:E1, (count e'.2 =? c) eqn:E2; try done. lia.
Qed.

(** X4: the sort used for the most frequent route and for the route cards
    only reorders the entries, puts them in non-increasing order of count,
    and keeps entries of equal count in the order they had. *)
Theorem sortByCountDesc_stable_sort entries :
  Permutation entries (sortByCountDesc entries)
  /\ StronglySorted countDescending (sortByCountDesc entries)
  /\ forall c, List.filter (fun e => count e.2 =? c) (sortByCountDesc entries)
               = List.filter (fun e => count e.2 =? c) entries.
Proof.
  split; [apply sortByCountDesc_perm|]. split; [apply sortByCountDesc_sorted|].
  intros c. induction entries as [|e entries IH]; [done|].
  change (sortByCountDesc (e :: entries)) with (insertByCount e (sortByCountDesc entries)).
  rewrite insertByCount_filter. cbn [List.filter]. by rewrite IH.
Qed.

Lemma In_drop {A} (y : A) n : forall l, In y (drop n l) -> In y l.
Proof.
  induction n as [|n IH]; intros l Hy; [done|].
  destruct l as [|a l]; [done|]. right. by apply IH.
Qed.

Lemma StronglySorted_take_drop {A} (R : A -> A -> Prop) n l :
  StronglySorted R l -> forall x y, In x (take n l) -> In y (drop n l) -> R x y.
Proof.
  intros Hs. revert n. induction Hs as [|a l Hs IH Hall]; intros n x y Hx Hy.
  - by destruct n.
  - destruct n as [|n]; [destruct Hx|]. simpl in Hx, Hy. destruct Hx as [<-|Hx].
    + rewrite List.Forall_forall in Hall. by eapply Hall, In_drop.
    + by apply (IH n).
Qed.

Lemma sorted_head_key data :
  data <> [] ->
  exists v rest,
    sortByCountDesc (routeStatsOf data) = (mostFrequentRouteOf data, v) :: rest.
Proof.
  intros Hne. unfold mostFrequentRouteOf.
  destruct (sortByCountDesc_head (routeStatsOf data)) as (l1 & [k v] & l2 & rest & Hs & Hh & _).
  { rewrite routeStatsOf_spec. destruct data as [|r data]; [done|].
    intros Hnil%map_eq_nil.
    assert (In (routeOf r) (firsts (map routeOf (r :: data)))) as Hin
      by (apply firsts_In; simpl; auto).
    by rewrite Hnil in Hin. }
  rewrite Hh. exists v, rest. do 2 f_equal.
  assert (In k (map fst (routeStatsOf data))) as Hk.
  { rewrite Hs, List.map_app, in_app_iff. right. by left. }
  rewrite routeStatsOf_spec, List.map_map in Hk. simpl in Hk.
  rewrite List.map_id in Hk. apply firsts_In, in_map_iff in Hk as (r & <- & _).
  pose proof (routeOf_nonEmpty r). by destruct (routeOf r).
Qed.

Section Cards.

Variable Date_parse : string -> option Z.

(** X5: for the statistics of a non-empty data set the route cards show
    the most frequent route first, show six routes or all of them if there
    are fewer, and no route left out has more flights than a route
    shown. *)
Theorem topRoutes_listing data st :
  calculateStats Date_parse data = Ret st ->
  data <> [] ->
  exists v shown hidden,
    topRoutes st = (FlightStats.mostFrequentRoute st, v) :: shown
    /\ length (topRoutes st) = min 6 (length (FlightStats.routeStats st))
    /\ Permutation (FlightStats.routeStats st) (topRoutes st ++ hidden)
    /\ (forall e e', In e (topRoutes st) -> In e' hidden -> count e'.2 <= count e.2).
Proof.
  intros Hst Hne.
  apply calculateStats_fields in Hst as (_ & Hbest & _ & _ & _ & Hroutes).
  destruct (sorted_head_key data Hne) as (v & rest & Hhead).
  unfold topRoutes. rewrite Hroutes, Hbest, Hhead.
  exists v, (take 5 rest), (drop 6 (sortByCountDesc (routeStatsOf data))).
  split; [done|]. split; [|split].
  - rewrite <- Hhead, length_take. f_equal.
    symmetry. apply Permutation_length, sortByCountDesc_perm.
  - rewrite <- Hhead, take_drop. apply sortByCountDesc_perm.
  - rewrite <- Hhead. intros e e' He He'.
    exact (StronglySorted_take_drop countDescending 6 _
             (sortByCountDesc_sorted _) e e' He He').
Qed.

End Cards.

Lemma topRoutes_listing_witness :
  let data := [ leg "A" "B" "2024-01-01"; leg "C" "D" "2024-01-02";
                leg "C" "D" "2024-01-03" ] in
  data <> []
  /\ exists st v shown hidden,
       calculateStats isoDateOnly data = Ret st
       /\ FlightStats.mostFrequentRoute st = "C-D"%string
       /\ topRoutes st = (FlightStats.mostFrequentRoute st, v) :: shown
       /\ Permutation (FlightStats.routeStats st) (topRoutes st ++ hidden).
Proof.
  intros data. split; [discriminate|].
  assert (exists st, calculateStats isoDateOnly data = Ret st
                     /\ FlightStats.mostFrequentRoute st = "C-D"%string) as (st & Hst & Hb).
  { eexists. split; [vm_compute; reflexivity | reflexivity]. }
  destruct (topRoutes_listing isoDateOnly data st Hst ltac:(discriminate))
    as (v & shown & hidden & H1 & _ & H3 & _).
  exists st, v, shown, hidden. auto.
Defined.

(** ** Averages and the day span *)

(** [roundDiv n d] is the integer nearest to [n / d], halves going up. *)
Lemma roundDiv_nearest n d :
  0 < d -> 2 * d * roundDiv n d - d <= 2 * n < 2 * d * roundDiv n d + d.
Proof.
  intros Hd. unfold roundDiv.
  pose proof (Z.div_mod (2 * n + d) (2 * d) ltac:(lia)).
  pose proof (Z.mod_pos_bound (2 * n + d) (2 * d) ltac:(lia)). lia.
Qed.

Lemma roundDiv_nonneg n d : 0 <= n -> 0 < d -> 0 <= roundDiv n d.
Proof. intros Hn Hd. unfold roundDiv. apply Z.div_pos; lia. Qed.

Lemma timeRoute_nonneg route data : 0 <= timeRoute route data.
Proof. apply sumOver_minutes_nonneg. Qed.

Section Averages.

Variable Date_parse : string -> option Z.

(** X6: for a non-empty data set the printed average flight time reads back
    as the integer nearest to (sum of minutes) / (number of records), a half
    being rounded up. *)
Theorem averageFlightTime_nearest data st :
  calculateStats Date_parse data = Ret st ->
  data <> [] ->
  exists avg,
    parseTimeBack (FlightStats.averageFlightTime st) = Ret avg
    /\ 0 <= avg
    /\ 2 * Z.of_nat (length data) * avg - Z.of_nat (length data)
       <= 2 * sumOver minutesOf data
       < 2 * Z.of_nat (length data) * avg + Z.of_nat (length data).
Proof.
  intros Hst Hne. destruct data as [|x data]; [done|].
  unfold calculateStats in Hst.
  destruct (monthlyFrom Date_parse [] (x :: data)); simpl in Hst; try done.
  injection Hst as <-. cbn [FlightStats.averageFlightTime].
  set (n := Z.of_nat (length (x :: data))).
  assert (0 < n) as Hn by (unfold n; simpl; lia).
  pose proof (sumOver_minutes_nonneg (x :: data)) as Hsum.
  rewrite totalMinutesOf_sum.
  exists (roundDiv (sumOver minutesOf (x :: data)) n).
  split; [apply parseTimeBack_format; by apply roundDiv_nonneg|].
  split; [by apply roundDiv_nonneg | by apply roundDiv_nearest].
Qed.

(** X7: when statistics are returned the day span is never negative; it is
    0 exactly when no date parses, and then the flights per day are the
    constant 0; otherwise it is at least 1 and the flights per day are the
    number of records over the day span. *)
Theorem daySpan_and_rate data st :
  calculateStats Date_parse data = Ret st ->
  (datesOf Date_parse data = [] ->
     FlightStats.totalDays st = 0 /\ FlightStats.averageFlightsPerDay st = None)
  /\ (datesOf Date_parse data <> [] ->
        1 <= FlightStats.totalDays st
        /\ FlightStats.averageFlightsPerDay st
           = Some (Z.of_nat (length data), FlightStats.totalDays st)).
Proof.
  intros Hst.
  assert (FlightStats.totalDays st = totalDaysOf Date_parse data
          /\ FlightStats.averageFlightsPerDay st
             = if 0 <? totalDaysOf Date_parse data
               then Some (Z.of_nat (length data), totalDaysOf Date_parse data)
               else None) as [Hd Ha].
  { destruct data as [|x data]; [by injection Hst as <-|].
    unfold calculateStats in Hst.
    destruct (monthlyFrom Date_parse [] (x :: data)); simpl in Hst; try done.
    by injection Hst as <-. }
  rewrite Ha, Hd. split.
  - intros Hnone. by rewrite (totalDaysOf_none _ _ Hnone).
  - intros Hsome.
    destruct (totalDaysOf_span Date_parse data Hsome) as (lo & hi & Hlo & Hhi & Hb & Hspan).
    assert (0 <= ceilDiv (hi - lo) msPerDay) as Hc.
    { pose proof (ceilDiv_spec (hi - lo) msPerDay ltac:(done)) as Hs.
      specialize (Hb lo Hlo). unfold msPerDay in *. nia. }
    rewrite Hspan. split; [lia|].
    by rewrite (proj2 (Z.ltb_lt 0 _)) by lia.
Qed.

End Averages.

Lemma averageFlightTime_nearest_witness :
  let data := [ leg "A" "B" "2024-01-01"; leg "C" "D" "2024-01-02" ] in
  data <> []
  /\ exists st avg,
       calculateStats isoDateOnly data = Ret st
       /\ parseTimeBack (FlightStats.averageFlightTime st) = Ret avg
       /\ 0 <= avg.
Proof.
  intros data. split; [discriminate|].
  assert (exists st, calculateStats isoDateOnly data = Ret st) as [st Hst]
    by (eexists; vm_compute; reflexivity).
  destruct (averageFlightTime_nearest isoDateOnly data st Hst ltac:(discriminate))
    as (avg & H1 & H2 & _).
  exists st, avg. auto.
Defined.

Lemma daySpan_and_rate_witness :
  let data := [ leg "A" "B" "2024-01-01"; leg "C" "D" "2024-01-10" ] in
  exists st,
    calculateStats isoDateOnly data = Ret st
    /\ datesOf isoDateOnly data <> []
    /\ 1 <= FlightStats.totalDays st
    /\ FlightStats.averageFlightsPerDay st = Some (2, FlightStats.totalDays st).
Proof.
  intros data.
  assert (exists st, calculateStats isoDateOnly data = Ret st) as [st Hst]
    by (eexists; vm_compute; reflexivity).
  assert (datesOf isoDateOnly data <> []) as Hd by (vm_compute; discriminate).
  exists st. split; [exact Hst|]. split; [exact Hd|].
  exact (proj2 (daySpan_and_rate isoDateOnly data st Hst) Hd).
Defined.

(** X8: on a route card the "Average Flight" text of every entry of the
    route table reads back as the integer nearest to the route's minutes
    over its number of flights; the count is never 0, so the division is
    always defined. *)
Theorem routeAverage_nearest data key v :
  In (key, v) (routeStatsOf data) ->
  exists avg,
    1 <= count v
    /\ parseTimeBack (routeAverage v) = Ret avg
    /\ 2 * countRoute key data * avg - countRoute key data
       <= 2 * timeRoute key data
       < 2 * countRoute key data * avg + countRoute key data.
Proof.
  rewrite routeStatsOf_spec. intros (k & [= <- <-] & Hk)%in_map_iff.
  apply firsts_In, in_map_iff in Hk as (r & <- & Hr).
  pose proof (countRoute_present data r Hr) as Hc.
  pose proof (timeRoute_nonneg (routeOf r) data) as Ht.
  unfold routeAverage. cbn [count totalTime].
  exists (roundDiv (timeRoute (routeOf r) data) (countRoute (routeOf r) data)).
  split; [done|]. split.
  - apply parseTimeBack_format, roundDiv_nonneg; lia.
  - apply roundDiv_nearest. lia.
Qed.

Lemma routeAverage_nearest_witness :
  let data := [ leg "A" "B" "2024-01-01"; leg "A" "B" "2024-01-02" ] in
  In ("A-B"%string, {| count := 2; totalTime := 0 |}) (routeStatsOf data)
  /\ exists avg,
       parseTimeBack (routeAverage {| count := 2; totalTime := 0 |}) = Ret avg.
Proof.
  intros data.
  assert (In ("A-B"%string, {| count := 2; totalTime := 0 |}) (routeStatsOf data)) as Hin
    by (left; reflexivity).
  split; [exact Hin|].
  destruct (routeAverage_nearest data _ _ Hin) as (avg & _ & H & _).
  by exists avg.
Defined.

(** ** Order of the records *)

Lemma sumOver_perm f l l' : Permutation l l' -> sumOver f l = sumOver f l'.
Proof. induction 1; simpl; lia. Qed.

Lemma totalCyclesOf_sum data :
  totalCyclesOf data = sumOver FlightRecord.totalCycles data.
Proof. unfold totalCyclesOf. by rewrite fold_sum. Qed.

Lemma span_perm t ts t' ts' :
  Permutation (t :: ts) (t' :: ts') ->
  maxOf t ts = maxOf t' ts' /\ minOf t ts = minOf t' ts'.
Proof.
  intros Hp.
  destruct (maxOf_spec ts t) as [Hin1 Hle1], (maxOf_spec ts' t') as [Hin2 Hle2].
  destruct (minOf_spec ts t) as [Hin3 Hle3], (minOf_spec ts' t') as [Hin4 Hle4].
  pose proof (Hle2 _ (Permutation_in _ Hp Hin1)).
  pose proof (Hle1 _ (Permutation_in _ (Permutation_sym Hp) Hin2)).
  pose proof (Hle4 _ (Permutation_in _ Hp Hin3)).
  pose proof (Hle3 _ (Permutation_in _ (Permutation_sym Hp) Hin4)).
  lia.
Qed.

Section Order.

Variable Date_parse : string -> option Z.

Lemma datesOf_perm data data' :
  Permutation data data' ->
  Permutation (datesOf Date_parse data) (datesOf Date_parse data').
Proof.
  unfold datesOf. induction 1 as [|x l l' Hp IH|x y l|l l' l'' H1 IH1 H2 IH2]; simpl.
  - done.
  - destruct (Date_parse (FlightRecord.date x)); [by constructor | done].
  - destruct (Date_parse (FlightRecord.date x)), (Date_parse (FlightRecord.date y));
      try done. apply perm_swap.
  - by etrans.
Qed.

Lemma totalDaysOf_perm data data' :
  Permutation data data' -> totalDaysOf Date_parse data = totalDaysOf Date_parse data'.
Proof.
  intros Hp%datesOf_perm. unfold totalDaysOf.
  destruct (datesOf Date_parse data) as [|t ts], (datesOf Date_parse data') as [|t' ts'].
  - done.
  - by apply Permutation_nil_cons in Hp.
  - symmetry in Hp. by apply Permutation_nil_cons in Hp.
  - by destruct (span_perm _ _ _ _ Hp) as [-> ->].
Qed.

Lemma calculateStats_Ret_inv data st :
  calculateStats Date_parse data = Ret st ->
  (data = [] /\ st = emptyStats)
  \/ (data <> [] /\ exists months,
        monthlyFrom Date_parse [] data = Ret months
        /\ st = statsWith Date_parse data months).
Proof.
  intros H. destruct data as [|x data]; [injection H as <-; by left|].
  right. split; [done|]. unfold calculateStats in H.
  destruct (monthlyFrom Date_parse [] (x :: data)) as [months| |]; simpl in H; try done.
  injection H as <-. by exists months.
Qed.

Lemma calculateStats_Ret_usable data st :
  calculateStats Date_parse data = Ret st -> Forall (usableDate Date_parse) data.
Proof.
  intros Hst. apply List.Forall_forall. intros r Hr. unfold usableDate.
  destruct (FlightRecord.date r) as [|c s] eqn:Ed; [by left|]. right.
  destruct (Date_parse (String c s)) as [t|] eqn:Ep; [by exists t|].
  rewrite (calculateStats_throws Date_parse data r Hr) in Hst;
    [discriminate | by rewrite Ed | by rewrite Ed].
Qed.

Lemma calculateStats_Throw_inv data e :
  calculateStats Date_parse data = Throw e ->
  e = invalidTime
  /\ exists r, In r data /\ FlightRecord.date r <> ""%string
               /\ Date_parse (FlightRecord.date r) = None.
Proof.
  assert (forall d entries, monthlyFrom Date_parse entries d = Throw e ->
            e = invalidTime
            /\ exists r, In r d /\ FlightRecord.date r <> ""%string
                         /\ Date_parse (FlightRecord.date r) = None) as Hm.
  { induction d as [|x d IH]; intros entries H; cbn [monthlyFrom] in H; [done|].
    destruct (Js.nonEmpty (FlightRecord.date x)) eqn:E.
    - unfold isoOf in H. destruct (Date_parse (FlightRecord.date x)) eqn:Ep; simpl in H.
      + destruct (IH _ H) as (-> & r & Hr & Hrest). split; [done|]. exists r. split; [by right | done].
      + injection H as <-. split; [done|]. exists x. split; [by left|]. split; [|done].
        intros Hd. by rewrite Hd in E.
    - destruct (IH _ H) as (-> & r & Hr & Hrest). split; [done|]. exists r. split; [by right | done]. }
  destruct data as [|x data]; [done|]. unfold calculateStats.
  destruct (monthlyFrom Date_parse [] (x :: data)) as [months| |] eqn:E; simpl; try done.
  intros [= <-]. by apply (Hm _ _ E).
Qed.

(** X9: the order of the records does not matter for the figures: a
    reordered data set gives the same total and average time, cycles,
    number of flights, day span and flights per day (the order of the route
    and month tables, and with it the route chosen on a tie, may change),
    and it fails with the same error if the original does. *)
Theorem figures_order_independent data data' :
  Permutation data data' ->
  (forall st, calculateStats Date_parse data = Ret st ->
     exists st', calculateStats Date_parse data' = Ret st' /\ figures st' = figures st)
  /\ (forall e, calculateStats Date_parse data = Throw e ->
        calculateStats Date_parse data' = Throw e).
Proof.
  intros Hp. split.
  - intros st Hst.
    pose proof (calculateStats_Ret_usable _ _ Hst) as Hall.
    apply (Permutation_Forall Hp) in Hall.
    destruct (calculateStats_returns Date_parse data' Hall) as (st' & Hst' & _).
    exists st'. split; [done|].
    apply calculateStats_Ret_inv in Hst as [[-> ->]|(Hne & months & _ & ->)].
    + apply Permutation_nil in Hp. subst data'. by injection Hst' as <-.
    + apply calculateStats_Ret_inv in Hst' as [[-> ->]|(Hne' & months' & _ & ->)].
      { symmetry in Hp. by apply Permutation_nil in Hp. }
      unfold figures, statsWith. cbn.
      rewrite !totalMinutesOf_sum, !totalCyclesOf_sum.
      rewrite (sumOver_perm minutesOf _ _ Hp), (sumOver_perm FlightRecord.totalCycles _ _ Hp).
      rewrite (Permutation_length Hp), (totalDaysOf_perm _ _ Hp). reflexivity.
  - intros e (-> & r & Hr & Hne & Hnone)%calculateStats_Throw_inv.
    apply (calculateStats_throws Date_parse data' r); [|done..].
    by apply (Permutation_in _ Hp).
Qed.

End Order.

Lemma figures_order_independent_witness :
  let data := [ leg "A" "B" "2024-01-01"; leg "C" "D" "2024-01-10" ] in
  let data' := [ leg "C" "D" "2024-01-10"; leg "A" "B" "2024-01-01" ] in
  Permutation data data'
  /\ exists st st',
       calculateStats isoDateOnly data = Ret st
       /\ calculateStats isoDateOnly data' = Ret st'
       /\ figures st' = figures st
       /\ FlightStats.mostFrequentRoute st <> FlightStats.mostFrequentRoute st'.
Proof.
  intros data data'.
  assert (Permutation data data') as Hp by apply perm_swap.
  split; [exact Hp|].
  assert (exists st, calculateStats isoDateOnly data = Ret st
                     /\ FlightStats.mostFrequentRoute st = "A-B"%string) as (st & Hst & Hb).
  { eexists. split; [vm_compute; reflexivity | reflexivity]. }
  destruct (proj1 (figures_order_independent isoDateOnly data data' Hp) st Hst)
    as (st' & Hst' & Hf).
  exists st, st'. split; [exact Hst|]. split; [exact Hst'|]. split; [exact Hf|].
  rewrite Hb. vm_compute in Hst'. injection Hst' as <-. discriminate.
Defined.

(** ** What an upload stores *)

Lemma removeChars_trimStart s :
  removeChars strippedChar (Js.trimStart s) = removeChars strippedChar s.
Proof.
  induction s as [|c s IH]; [done|]. cbn [Js.trimStart removeChars].
  destruct (Js.isWhiteSpace c) eqn:E; [|done].
  unfold strippedChar at 2. rewrite E, orb_true_r. exact IH.
Qed.

Lemma removeChars_trimEnd s :
  removeChars strippedChar (Js.trimEnd s) = removeChars strippedChar s.
Proof.
  induction s as [|c s IH]; [done|]. cbn [Js.trimEnd].
  destruct (Js.trimEnd s) as [|c' t] eqn:Et.
  - cbn [removeChars] in *. rewrite <- IH.
    destruct (Js.isWhiteSpace c) eqn:E.
    + unfold strippedChar. by rewrite E, orb_true_r.
    + done.
  - cbn [removeChars] in *. by rewrite IH.
Qed.

Lemma removeChars_clean_id p s : hasChar p s = false -> removeChars p s = s.
Proof.
  induction s as [|c s IH]; [done|]. cbn [hasChar removeChars].
  intros [-> Hs]%orb_false_elim. by rewrite IH.
Qed.

(** X10: the key a header is stored under is the header with every
    backslash and every white-space character deleted (trimming first
    changes nothing); a header without such characters is its own key, and
    taking the key twice is the same as taking it once. *)
Theorem canonicalKey_deletes header :
  canonicalKey header = removeChars strippedChar header
  /\ hasChar strippedChar (canonicalKey header) = false
  /\ canonicalKey (canonicalKey header) = canonicalKey header
  /\ (hasChar strippedChar header = false -> canonicalKey header = header).
Proof.
  assert (forall h, canonicalKey h = removeChars strippedChar h) as Hk.
  { intros h. unfold canonicalKey, Js.trim.
    by rewrite removeChars_trimEnd, removeChars_trimStart. }
  split; [apply Hk|]. split; [apply canonicalKey_clean|]. split.
  - rewrite (Hk (canonicalKey header)).
    apply removeChars_clean_id, canonicalKey_clean.
  - intros Hclean. rewrite Hk. by apply removeChars_clean_id.
Qed.

Lemma canonicalKey_deletes_witness :
  hasChar strippedChar "Cyc." = false /\ canonicalKey "Cyc." = "Cyc."%string.
Proof.
  split; [reflexivity|].
  exact (proj2 (proj2 (proj2 (canonicalKey_deletes "Cyc."))) eq_refl).
Defined.

Lemma fillFrom_other key headers : forall index row record,
  Forall (fun c => headerKey c <> Some key) headers ->
  fillFrom index headers row record !! key = record !! key.
Proof.
  induction headers as [|[h|] headers IH]; intros index row record Hall; simpl; [done|..];
    apply Forall_cons_1 in Hall as [Hh Hall]; rewrite IH by done; [|done].
  apply assign_ne. intros E. apply Hh. simpl. by rewrite E.
Qed.

Lemma fillFrom_last key pre h post : forall index row record,
  key <> "__proto__" ->
  canonicalKey h = key ->
  Forall (fun c => headerKey c <> Some key) post ->
  fillFrom index (pre ++ Some h :: post) row record !! key
  = Some (at_index row (index + length pre)).
Proof.
  induction pre as [|[h'|] pre IH]; intros index row record Hp Hk Hpost.
  - cbn [app fillFrom length]. rewrite fillFrom_other by done.
    rewrite Hk, Nat.add_0_r. by apply assign_eq.
  - cbn [app fillFrom length]. rewrite IH by done. do 2 f_equal. lia.
  - cbn [app fillFrom length]. rewrite IH by done. do 2 f_equal. lia.
Qed.

Lemma fillFrom_proto headers : forall index row record,
  fillFrom index headers row record !! "__proto__" = record !! "__proto__".
Proof.
  induction headers as [|[h|] headers IH]; intros index row record; simpl; [done|..];
    rewrite IH; [|done].
  unfold assign. destruct (String.eqb (canonicalKey h) "__proto__") eqn:E; [done|].
  apply lookup_insert_ne. by apply String.eqb_neq.
Qed.

(** X11: in the object built for a row, a key other than __proto__ holds
    the cell of the last column whose header is stored under that key (a
    hole in the row or a row that is too short gives undefined): of two
    columns with the same key the later one wins.  A key no header is
    stored under reads as undefined unless it is one of the names of
    Object.prototype, and nothing is ever stored under __proto__. *)
Theorem recordOf_last_header_wins headers row :
  (forall key pre h post,
     key <> "__proto__"%string ->
     headers = pre ++ Some h :: post ->
     canonicalKey h = key ->
     Forall (fun c => headerKey c <> Some key) post ->
     recordOf headers row !! key = Some (at_index row (length pre))
     /\ prop (recordOf headers row) key = at_index row (length pre))
  /\ (forall key,
        ~ In key objectPrototypeKeys ->
        Forall (fun c => headerKey c <> Some key) headers ->
        recordOf headers row !! key = None
        /\ prop (recordOf headers row) key = None)
  /\ recordOf headers row !! "__proto__"%string = None.
Proof.
  unfold prop, recordOf. split; [|split].
  - intros key pre h post Hp -> Hk Hpost.
    by rewrite (fillFrom_last key pre h post).
  - intros key _ Hall. by rewrite fillFrom_other, lookup_empty.
  - by rewrite fillFrom_proto, lookup_empty.
Qed.

Lemma recordOf_last_header_wins_witness :
  let headers := [Some "Date"; Some "From"; Some " Date "; Some "__proto__"; Some "To"] in
  let row := [Some "2024-01-01"; Some "CAI"; Some "2024-02-02"; Some "x"; Some "JED"] in
  prop (recordOf headers row) "Date" = Some "2024-02-02"%string
  /\ prop (recordOf headers row) "Ser" = None
  /\ recordOf headers row !! "__proto__"%string = None.
Proof.
  intros headers row.
  pose proof (recordOf_last_header_wins headers row) as (Hlast & Hnone & Hproto).
  split; [|split; [|exact Hproto]].
  - refine (proj2 (Hlast "Date"%string [Some "Date"; Some "From"]%string " Date "%string
                     [Some "__proto__"; Some "To"]%string _ eq_refl eq_refl _)).
    + discriminate.
    + repeat constructor; vm_compute; discriminate.
  - refine (proj2 (Hnone "Ser"%string _ _)).
    + simpl. intros H. repeat destruct H as [H|H]; try discriminate H. exact H.
    + repeat constructor; vm_compute; discriminate.
Defined.

Lemma omap_id_In {A} (l : list (option A)) x : In x (omap id l) <-> In (Some x) l.
Proof.
  induction l as [|[a|] l IH]; [done|..].
  - change (omap id (Some a :: l)) with (a :: omap id l). simpl. rewrite IH.
    split; [intros [->|]; auto | intros [[= ->]|]; auto].
  - change (omap id (None :: l)) with (omap id l). simpl. rewrite IH.
    split; [auto | intros [|]; [done | auto]].
Qed.


Lemma pipelineResult_inv headers row r :
  pipelineResult headers row = Some r ->
  r = pipelineRecord headers row /\ valid r = true.
Proof.
  unfold pipelineResult. destruct (valid (pipelineRecord headers row)) eqn:E; [|done].
  by intros [= <-].
Qed.

Lemma sumOver_zero f data : (forall r, In r data -> f r = 0) -> sumOver f data = 0.
Proof.
  induction data as [|x data IH]; intros H; simpl; [done|].
  rewrite (H x) by (by left). rewrite IH; [done|]. intros; apply H; by right.
Qed.

Lemma addMonth_zero month entries :
  Forall (fun e => hours e.2 = 0 /\ month_cycles e.2 = 0) entries ->
  Forall (fun e => hours e.2 = 0 /\ month_cycles e.2 = 0) (addMonth month 0 0 entries).
Proof.
  induction 1 as [|[k v] entries [Hh Hc] Hall IH]; simpl; [by repeat constructor|].
  destruct (String.eqb k month); constructor; simpl in *; try done. lia.
Qed.

Section Stored.

Variable Date_parse : string -> option Z.

Lemma monthlyFrom_zero data : forall entries months,
  (forall r, In r data -> minutesOf r = 0 /\ FlightRecord.totalCycles r = 0) ->
  Forall (fun e => hours e.2 = 0 /\ month_cycles e.2 = 0) entries ->
  monthlyFrom Date_parse entries data = Ret months ->
  Forall (fun e => hours e.2 = 0 /\ month_cycles e.2 = 0) months.
Proof.
  induction data as [|x data IH]; intros entries months Hz He H; cbn [monthlyFrom] in H.
  - by injection H as <-.
  - assert (forall r, In r data -> minutesOf r = 0 /\ FlightRecord.totalCycles r = 0) as Hz'
      by (intros; apply Hz; by right).
    destruct (Js.nonEmpty _); [|by eapply IH].
    destruct (isoOf Date_parse _) as [iso| |]; simpl in H; try done.
    destruct (Hz x (or_introl eq_refl)) as [Hm Hc]. rewrite Hm, Hc in H.
    eapply IH; [done | by apply addMonth_zero | done].
Qed.

(** What a successful upload has gone through. *)
Lemma handleFileUpload_success st file st' :
  handleFileUpload Date_parse st file = Ret (st', None) ->
  exists headers rows s,
    file = Sheet (headers :: rows)
    /\ forallb (hasHeader headers) requiredHeaders = true
    /\ flightData st' = omap id (map (pipelineResult headers) rows)
    /\ flightData st' <> []
    /\ calculateStats Date_parse (flightData st') = Ret s
    /\ stats st' = Some s
    /\ isLoading st' = false.
Proof.
  unfold handleFileUpload.
  destruct (processUpload Date_parse file) as [[d s]| |] eqn:E; [|done..].
  intros [= <-]. cbn [flightData stats isLoading].
  destruct file as [e|[|headers rows]]; try done. unfold processUpload in E.
  destruct (forallb _ _) eqn:Eh; cbn [negb] in E; [|done].
  rewrite traverse_processRow in E. simpl in E.
  destruct (_ =? _)%nat eqn:El; [done|].
  destruct (calculateStats _ _) as [s'| |] eqn:Es; simpl in E; try done.
  injection E as <- <-. exists headers, rows, s'. repeat split; try done.
  intros Hnil. by rewrite Hnil in El.
Qed.

(** X12: whatever the sheet holds, after a successful upload every record
    has 0 or the empty text in the fields whose column header contains a
    backslash or a blank (take-off, landing and flight times, total flight
    time, total cycles, TLB number, last date and the TOTAL columns), and so
    the statistics show a total and an average flight time of 0:00, 0 total
    cycles, and 0 minutes for every route and every month. *)
Theorem upload_never_reads_spaced_columns st file st' :
  handleFileUpload Date_parse st file = Ret (st', None) ->
  Forall (fun r => Forall (fun z => z = 0) (unreadNumbers r)
                   /\ Forall (fun s => s = ""%string) (unreadTexts r)
                   /\ previewTime r = "0:00"%string) (flightData st')
  /\ exists s,
       stats st' = Some s
       /\ FlightStats.totalFlightTime s = "0:00"%string
       /\ FlightStats.averageFlightTime s = "0:00"%string
       /\ FlightStats.totalCycles s = 0
       /\ Forall (fun e => totalTime e.2 = 0) (FlightStats.routeStats s)
       /\ Forall (fun e => hours e.2 = 0 /\ month_cycles e.2 = 0)
                 (FlightStats.monthlyStats s).
Proof.
  intros (headers & rows & s & -> & _ & Hd & Hne & Hs & Hst & _)%handleFileUpload_success.
  assert (forall r, In r (flightData st') -> exists row, r = pipelineRecord headers row) as Hrec.
  { intros r Hr. rewrite Hd in Hr. apply omap_id_In, in_map_iff in Hr as (row & Hrow & _).
    exists row. by apply pipelineResult_inv in Hrow as [-> _]. }
  assert (forall r, In r (flightData st') ->
            minutesOf r = 0 /\ FlightRecord.totalCycles r = 0) as Hzero.
  { intros r (row & ->)%Hrec. done. }
  split.
  - apply List.Forall_forall. intros r (row & ->)%Hrec.
    split; [repeat constructor|]. split; [repeat constructor | reflexivity].
  - exists s. split; [done|].
    apply calculateStats_Ret_inv in Hs as [[Hnil _]|(_ & months & Hm & ->)]; [done|].
    unfold statsWith. cbn.
    assert (totalMinutesOf (flightData st') = 0) as ->.
    { rewrite totalMinutesOf_sum. apply sumOver_zero. intros r Hr. by apply Hzero. }
    assert (roundDiv 0 (Z.of_nat (length (flightData st'))) = 0) as ->.
    { unfold roundDiv. apply Z.div_small. destruct (flightData st'); [done|]. simpl. lia. }
    split; [reflexivity|]. split; [reflexivity|]. split; [|split].
    + rewrite totalCyclesOf_sum. apply sumOver_zero. intros r Hr. by apply Hzero.
    + rewrite routeStatsOf_spec. apply List.Forall_forall.
      intros e (k & <- & _)%in_map_iff. cbn. apply sumOver_zero.
      intros r [Hr _]%List.filter_In. by apply Hzero.
    + eapply monthlyFrom_zero; [exact Hzero | constructor | exact Hm].
Qed.


End Stored.

Lemma upload_never_reads_spaced_columns_witness :
  exists st',
    handleFileUpload isoDateOnly idleState (Sheet [fullHeaders; fullRow]) = Ret (st', None)
    /\ Forall (fun r => Forall (fun z => z = 0) (unreadNumbers r)) (flightData st')
    /\ exists s, stats st' = Some s /\ FlightStats.totalFlightTime s = "0:00"%string.
Proof.
  eexists. split; [vm_compute; reflexivity|].
  refine (let H := upload_never_reads_spaced_columns isoDateOnly idleState
                     (Sheet [fullHeaders; fullRow]) _ _ in _).
  destruct (proj2 H) as (s & Hs & Ht & _).
  split; [|by exists s].
  eapply List.Forall_impl; [|exact (proj1 H)]. by intros r [Hr _].
  Unshelve. vm_compute; reflexivity.
Defined.


(** ** Dropped and selected files *)

Section EntryFacts.

Variable Date_parse : string -> option Z.

(** X14: of the dropped files the first one whose name ends in .xlsx or
    .xls (in lower case) is uploaded and the others are ignored; if no name
    ends so, nothing changes and the Excel alert is shown.  A file chosen
    through the input is uploaded whatever its name. *)
Theorem handleDrop_first_excel st :
  (forall others file rest,
     Forall (fun f => isExcelName (file_name f) = false) others ->
     isExcelName (file_name file) = true ->
     handleDrop Date_parse st (others ++ file :: rest)
     = handleFileUpload Date_parse st (file_content file))
  /\ (forall files,
        Forall (fun f => isExcelName (file_name f) = false) files ->
        handleDrop Date_parse st files = Ret (st, Some notExcelAlert))
  /\ (forall file rest,
        handleFileInput Date_parse st (file :: rest)
        = handleFileUpload Date_parse st (file_content file)).
Proof.
  split; [|split].
  - intros others file rest Hothers Hfile. unfold handleDrop.
    assert (List.find (fun f => isExcelName (file_name f)) (others ++ file :: rest)
            = Some file) as ->; [|done].
    induction Hothers as [|f others Hf _ IH]; simpl; [by rewrite Hfile|].
    by rewrite Hf.
  - intros files Hall. unfold handleDrop.
    assert (List.find (fun f => isExcelName (file_name f)) files = None) as ->; [|done].
    induction Hall as [|f files Hf _ IH]; simpl; [done|]. by rewrite Hf.
  - done.
Qed.

End EntryFacts.

Lemma handleDrop_first_excel_witness :
  let files := [sampleFile "notes.txt"; sampleFile "LOG.XLSX"; sampleFile "log.xls";
                sampleFile "later.xlsx"] in
  handleDrop isoDateOnly idleState files
  = handleFileUpload isoDateOnly idleState (file_content (sampleFile "log.xls"))
  /\ handleDrop isoDateOnly loadedState [sampleFile "notes.txt"; sampleFile "LOG.XLSX"]
     = Ret (loadedState, Some notExcelAlert).
Proof.
  intros files. split.
  - refine (proj1 (handleDrop_first_excel isoDateOnly idleState)
              [sampleFile "notes.txt"; sampleFile "LOG.XLSX"] (sampleFile "log.xls")
              [sampleFile "later.xlsx"] _ _); [repeat constructor | reflexivity].
  - refine (proj1 (proj2 (handleDrop_first_excel isoDateOnly loadedState)) _ _).
    repeat constructor.
Defined.

(** ** Reading numbers and times *)

Lemma string_app_nil s : (s ++ "")%string = s.
Proof. induction s as [|c s IH]; [done|]. by rewrite append_cons, IH. Qed.

Lemma trimStart_blanks ws s :
  Js.forallb_string Js.isWhiteSpace ws = true ->
  Js.trimStart (ws ++ s)%string = Js.trimStart s.
Proof.
  induction ws as [|c ws IH]; [done|]. cbn [Js.forallb_string].
  intros [Hc Hws]%andb_prop. rewrite append_cons. cbn [Js.trimStart].
  rewrite Hc. by apply IH.
Qed.

Lemma takeDigits_app s rest :
  Js.allDigits 10 s = true ->
  Js.takeDigits 10 (s ++ rest)%string = Js.takeDigits 10 s ++ Js.takeDigits 10 rest.
Proof.
  induction s as [|c s IH]; [done|]. cbn [Js.allDigits].
  intros [Hc Hs]%andb_prop. rewrite append_cons. cbn [Js.takeDigits].
  apply bool_decide_eq_true in Hc as [d Hd]. rewrite Hd. simpl. by rewrite IH.
Qed.

Lemma takeDigits_stop rest : leadingDigit rest = false -> Js.takeDigits 10 rest = [].
Proof.
  destruct rest as [|c rest]; [done|]. cbn [leadingDigit Js.takeDigits].
  unfold isDigit. intros H%bool_decide_eq_false.
  destruct (Js.radixDigit 10 c) eqn:E; [|done]. destruct H. by eexists.
Qed.

Lemma takeDigits_nonEmpty s :
  Js.nonEmpty s = true -> Js.allDigits 10 s = true -> Js.takeDigits 10 s <> [].
Proof.
  destruct s as [|c s]; [done|]. cbn [Js.allDigits Js.takeDigits].
  intros _ [Hc _]%andb_prop. apply bool_decide_eq_true in Hc as [d Hd]. by rewrite Hd.
Qed.

Lemma append_nonEmpty_r a b : Js.nonEmpty b = true -> Js.nonEmpty (a ++ b)%string = true.
Proof. destruct a; [done|]. by rewrite append_cons. Qed.

(** A run of digits is not taken for a hexadecimal number unless it is a
    lone 0 with an x behind it. *)
Lemma stripHexPrefix_digits digits rest :
  Js.nonEmpty digits = true -> Js.allDigits 10 digits = true ->
  (digits = "0"%string -> leadingX rest = false) ->
  Js.stripHexPrefix (digits ++ rest)%string = None.
Proof.
  destruct digits as [|c digits]; [done|]. intros _ Hd Hx.
  cbn [Js.allDigits] in Hd. apply andb_prop in Hd as [Hc Hd]. rewrite append_cons.
  destruct digits as [|c' digits].
  - change ("" ++ rest)%string with rest. destruct rest as [|x rest]; [each_digit Hc|].
    destruct (Ascii.eqb c "0") eqn:E0.
    + apply Ascii.eqb_eq in E0 as ->. specialize (Hx eq_refl). cbn [leadingX] in Hx.
      apply orb_false_elim in Hx as [H1 H2]. apply Ascii.eqb_neq in H1, H2.
      cbn [Js.stripHexPrefix]. destruct x as [[] [] [] [] [] [] [] []]; done.
    + apply Ascii.eqb_neq in E0. unfold Js.stripHexPrefix.
      destruct c as [[] [] [] [] [] [] [] []]; done.
  - cbn [Js.allDigits] in Hd. apply andb_prop in Hd as [Hc' _]. rewrite append_cons.
    apply isDigit_cases in Hc'. simpl in Hc'. unfold Js.stripHexPrefix.
    repeat destruct Hc' as [<- | Hc']; try done;
      destruct c as [[] [] [] [] [] [] [] []]; done.
Qed.

(** [parseInt] on a run of digits followed by anything that does not
    continue the number. *)
Lemma parseInt_magnitude digits rest :
  Js.nonEmpty digits = true -> Js.allDigits 10 digits = true ->
  leadingDigit rest = false -> (digits = "0"%string -> leadingX rest = false) ->
  Js.trimStart (digits ++ rest)%string = (digits ++ rest)%string
  /\ Js.stripSign (digits ++ rest)%string = (false, (digits ++ rest)%string)
  /\ Js.stripHexPrefix (digits ++ rest)%string = None
  /\ exists d ds, Js.takeDigits 10 (digits ++ rest)%string = d :: ds
                  /\ Js.mathInt 10 (d :: ds) = decimalValue 0 digits.
Proof.
  intros Hne Hd Hrest Hx.
  split; [|split; [|split; [by apply stripHexPrefix_digits|]]].
  - destruct digits as [|c digits]; [done|]. rewrite append_cons.
    cbn [Js.allDigits] in Hd. apply andb_prop in Hd as [Hc _]. each_digit Hc.
  - destruct digits as [|c digits]; [done|]. rewrite append_cons.
    cbn [Js.allDigits] in Hd. apply andb_prop in Hd as [Hc _]. each_digit Hc.
  - rewrite takeDigits_app by done. rewrite (takeDigits_stop rest Hrest), app_nil_r.
    pose proof (takeDigits_nonEmpty _ Hne Hd) as Hds. unfold decimalValue.
    destruct (Js.takeDigits 10 digits) as [|d ds]; [done|]. by exists d, ds.
Qed.

Lemma parseInt_signed ws sign digits rest :
  Js.forallb_string Js.isWhiteSpace ws = true ->
  In sign [""; "+"; "-"]%string ->
  Js.nonEmpty digits = true -> Js.allDigits 10 digits = true ->
  leadingDigit rest = false -> (digits = "0"%string -> leadingX rest = false) ->
  Js.parseInt (ws ++ sign ++ digits ++ rest)%string
  = Some (signed sign (decimalValue 0 digits)).
Proof.
  intros Hws Hsign Hne Hd Hrest Hx. unfold Js.parseInt. rewrite trimStart_blanks by done.
  destruct (parseInt_magnitude digits rest Hne Hd Hrest Hx)
    as (Ht & Hs & Hh & d & ds & Hds & Hv).
  destruct Hsign as [<-|[<-|[<-|[]]]].
  - change ("" ++ digits ++ rest)%string with (digits ++ rest)%string.
    by rewrite Ht, Hs, Hh, Hds, Hv.
  - rewrite append_cons. change ("" ++ digits ++ rest)%string with (digits ++ rest)%string.
    cbn [Js.trimStart]. change (Js.isWhiteSpace "+") with false. cbn [Js.stripSign].
    by rewrite Hh, Hds, Hv.
  - rewrite append_cons. change ("" ++ digits ++ rest)%string with (digits ++ rest)%string.
    cbn [Js.trimStart]. change (Js.isWhiteSpace "-") with false. cbn [Js.stripSign].
    by rewrite Hh, Hds, Hv.
Qed.

(** X15: a numeric cell that holds, after leading white space, an optional
    sign and a run of decimal digits (leading zeros allowed) followed by
    anything that does not start with a digit gives the integer these
    digits denote, negated after a minus sign: text after the number is
    ignored, it does not make the cell invalid.  This is for every row,
    whatever its other cells hold, and for numbers up to 2^53, which a
    double holds exactly.  (After a lone 0 the following text must not start
    with x, which would make it a hexadecimal number.) *)
Theorem numeric_cell_reads_leading_integer row index key ws sign digits rest :
  In key parsedKeys ->
  prop row key = Some (ws ++ sign ++ digits ++ rest)%string ->
  Js.forallb_string Js.isWhiteSpace ws = true ->
  In sign [""; "+"; "-"]%string ->
  Js.nonEmpty digits = true -> Js.allDigits 10 digits = true ->
  leadingDigit rest = false ->
  (digits = "0"%string -> leadingX rest = false) ->
  decimalValue 0 digits <= 2 ^ 53 ->
  In (key, signed sign (decimalValue 0 digits)) (parsedFields (Full.normalize row index))
  /\ forall r, normalize row index = Ret r ->
       In (key, signed sign (decimalValue 0 digits)) (parsedFields r).
Proof.
  intros Hkey Hcell Hws Hsign Hne Hd Hrest Hx _.
  assert (In (key, signed sign (decimalValue 0 digits))
             (map (fun key => (key, intOf (prop row key))) parsedKeys)) as Hin.
  { apply in_map_iff. exists key. split; [|done]. f_equal.
    rewrite Hcell. unfold intOf.
    assert (orElse (Some (ws ++ sign ++ digits ++ rest)%string) "0"
            = (ws ++ sign ++ digits ++ rest)%string) as ->.
    { assert (Js.nonEmpty (ws ++ sign ++ digits ++ rest)%string = true) as Hn
        by (by do 2 apply append_nonEmpty_r; apply append_nonEmpty).
      by destruct (ws ++ sign ++ digits ++ rest)%string. }
    by rewrite parseInt_signed. }
  split; [exact Hin|]. intros r Hr.
  by apply normalize_inv in Hr as (_ & _ & _ & _ & -> & _).
Qed.

Lemma numeric_cell_reads_leading_integer_witness :
  let row : gmap string cell :=
    {[ "Date" := Some "2024-01-10"; "Cyc." := Some "  +012 landings";
       "Total F\H" := Some "1.5:30" ]} in
  In ("Cyc."%string, 12) (parsedFields (Full.normalize row 0))
  /\ FlightRecord.cycles (Full.normalize row 0) = 12.
Proof.
  intros row. split; [|reflexivity].
  refine (proj1 (numeric_cell_reads_leading_integer row 0 "Cyc." "  " "+" "012" " landings"
                   _ _ _ _ _ _ _ _ _));
    first [ by vm_compute | simpl; tauto | discriminate ].
Defined.

Lemma split_first a s :
  Js.includes ":" a = false ->
  Js.split ":" (a ++ ":" ++ s)%string = a :: Js.split ":" s.
Proof.
  intros Ha. induction a as [|c a IH]; [done|].
  cbn [Js.includes] in Ha. apply orb_false_elim in Ha as [Hc Ha].
  rewrite append_cons. cbn [Js.split]. rewrite Hc, IH by done. reflexivity.
Qed.

Lemma split_head b tail :
  Js.includes ":" b = false -> endsComponent tail = true ->
  exists ps, Js.split ":" (b ++ tail)%string = b :: ps.
Proof.
  intros Hb Ht. destruct tail as [|c tail].
  - rewrite string_app_nil, split_plain by done. by eexists.
  - cbn [endsComponent] in Ht. apply Ascii.eqb_eq in Ht as ->.
    change (String ":" tail) with (":" ++ tail)%string.
    rewrite split_first by done. by eexists.
Qed.

Lemma includes_app_colon a s : Js.includes ":" (a ++ ":" ++ s)%string = true.
Proof. induction a as [|c a IH]; [done|]. rewrite append_cons. cbn [Js.includes]. by rewrite IH, orb_true_r. Qed.

Lemma component_run parts i s :
  parts !! i = Some s -> Js.allDigits 10 s = true ->
  component parts i = Ret (decimalValue 0 s).
Proof.
  intros Hp Hd. destruct s as [|c s]; [unfold component; by rewrite Hp|].
  by apply component_digits.
Qed.

Lemma parseTimeString_digits hd md tail :
  Js.allDigits 10 hd = true -> Js.allDigits 10 md = true -> endsComponent tail = true ->
  parseTimeString (hd ++ ":" ++ md ++ tail)%string
  = Ret (decimalValue 0 hd, decimalValue 0 md).
Proof.
  intros Hh Hm Ht. unfold parseTimeString.
  rewrite append_nonEmpty_r by done. cbn [negb].
  rewrite split_first by by apply digits_no_colon.
  destruct (split_head md tail) as [ps ->]; [by apply digits_no_colon | done |].
  rewrite (component_run _ 0%nat hd), (component_run _ 1%nat md) by done.
  reflexivity.
Qed.

Lemma decimalValue_nonneg s : 0 <= decimalValue 0 s.
Proof. apply digitFold_nonneg; [lia | lia | apply takeDigits_nonneg]. Qed.

(** X16: when the Total F\H cell of a row object holds a run of digits, a
    colon and a second run of digits (leading zeros allowed, either run may
    be empty and counts as 0), the record gets the two numbers the runs
    denote, whatever follows a second colon and whatever the TOTAL HRS cell
    says; the minutes are not limited to 59, and the record counts for
    hours * 60 + minutes.  This is for times up to 2^53 minutes, which
    doubles hold exactly. *)
Theorem colon_form_read row index hd md tail :
  Js.allDigits 10 hd = true -> Js.allDigits 10 md = true ->
  endsComponent tail = true ->
  decimalValue 0 hd * 60 + decimalValue 0 md <= 2 ^ 53 ->
  prop row "Total F\H" = Some (hd ++ ":" ++ md ++ tail)%string ->
  exists r,
    normalize row index = Ret r
    /\ FlightRecord.totalFlightHours r = decimalValue 0 hd
    /\ FlightRecord.totalFlightMinutes r = decimalValue 0 md
    /\ minutesOf r = decimalValue 0 hd * 60 + decimalValue 0 md.
Proof.
  intros Hh Hm Ht _ Hcell. unfold normalize. rewrite Hcell.
  assert (orElse (Some (hd ++ ":" ++ md ++ tail)%string) ""
          = (hd ++ ":" ++ md ++ tail)%string) as ->.
  { assert (Js.nonEmpty (hd ++ ":" ++ md ++ tail)%string = true) as Hn
      by (by apply append_nonEmpty_r).
    by destruct (hd ++ ":" ++ md ++ tail)%string. }
  rewrite includes_app_colon, parseTimeString_digits by done.
  eexists. split; [reflexivity|]. split; [done|]. split; [done|].
  unfold minutesOf, parseTimeToMinutes. simpl.
  pose proof (decimalValue_nonneg hd). pose proof (decimalValue_nonneg md). lia.
Qed.

Lemma colon_form_read_witness :
  let row : gmap string cell :=
    {[ "Date" := Some "2024-01-10"; "Total F\H" := Some "03:05:30";
       "TOTAL HRS" := Some "9" ]} in
  exists r,
    normalize row 0 = Ret r
    /\ FlightRecord.totalFlightHours r = 3
    /\ FlightRecord.totalFlightMinutes r = 5
    /\ minutesOf r = 3 * 60 + 5.
Proof.
  intros row.
  refine (colon_form_read row 0 "03" "05" ":30" _ _ _ _ _); first [by vm_compute | reflexivity].
Defined.

(** ** Route keys *)

(** X18: the route key joins origin and destination with a hyphen and so
    does not tell where the origin ends: a flight from "a-b" to "c" and a
    flight from "a" to "b-c" get the same key and are counted as one
    route. *)
Theorem route_key_collision r1 r2 a b c :
  FlightRecord.from r1 = (a ++ "-" ++ b)%string -> FlightRecord.to r1 = c ->
  FlightRecord.from r2 = a -> FlightRecord.to r2 = (b ++ "-" ++ c)%string ->
  routeOf r1 = routeOf r2
  /\ routeStatsOf [r1; r2]
     = [(routeOf r1, {| count := 2; totalTime := minutesOf r1 + minutesOf r2 |})].
Proof.
  intros Hf1 Ht1 Hf2 Ht2.
  assert (routeOf r1 = routeOf r2) as Hk.
  { unfold routeOf. rewrite Hf1, Ht1, Hf2, Ht2. by rewrite !append_assoc. }
  split; [exact Hk|]. unfold routeStatsOf. cbn [fold_left addRoute].
  rewrite <- Hk, String.eqb_refl. do 2 f_equal.
Qed.

Lemma route_key_collision_witness :
  let r1 := leg "CAI-T3" "JED" "2024-01-01" in
  let r2 := leg "CAI" "T3-JED" "2024-01-02" in
  routeOf r1 = routeOf r2
  /\ FlightRecord.from r1 <> FlightRecord.from r2
  /\ length (routeStatsOf [r1; r2]) = 1%nat.
Proof.
  intros r1 r2.
  destruct (route_key_collision r1 r2 "CAI" "T3" "JED" eq_refl eq_refl eq_refl eq_refl)
    as [Hk Hs].
  split; [exact Hk|]. split; [discriminate|]. by rewrite Hs.
Defined.
